(** * Order-table validator: a shallow embedding of [app.py]

    The validation engine of the application is embedded here as Rocq
    functions: the field checks of [validate_row], the date check
    [validate_date], the table loop that threads the set of identifiers seen
    so far, the table statistics, the error tally and the error filter of the
    "Errors" page.  Rendering (Streamlit widgets, charts, downloads) has no
    counterpart.

    Cells are the dynamically typed values the CSV reader hands to
    [validate_row]: text, integers, binary64 floats (a missing cell is the
    float NaN) and booleans.

    Text is ASCII: a character is one of the codes 0..127, and the character
    classes below (digits, white space) are Python's on such characters.
    Python also takes decimal digits and white space from beyond ASCII, which
    these definitions do not know; a statement that depends on reading digits
    or white space is therefore made for ASCII text, [Text.is_ascii]. *)

From Stdlib Require Import ZArith List String Ascii Bool Lia Arith.
From Stdlib Require Import Numbers.DecimalString.
From Stdlib Require Import Floats.SpecFloat.
From Stdlib Require Import Sorting.Permutation Sorting.Sorted.
Import ListNotations.

Local Open Scope string_scope.
Local Open Scope list_scope.

(** ** Cell values *)

Inductive value : Type :=
| VStr (s : string)
| VInt (z : Z)
| VFloat (f : spec_float)
| VBool (b : bool).

(** The float NaN, which is how the reader represents a missing cell. *)
Definition NaN : value := VFloat S754_nan.

(** [pd.isna] on a scalar cell. *)
Definition isna (v : value) : bool :=
  match v with
  | VFloat S754_nan => true
  | _ => false
  end.

(** ** Characters and text *)

Module Text.

Definition code (c : ascii) : nat := nat_of_ascii c.

Definition in_range (lo hi c : ascii) : bool :=
  (code lo <=? code c)%nat && (code c <=? code hi)%nat.

(** The digits [0]..[9]: on ASCII text, what [\d], [int()] and [float()]
    take for a digit. *)
Definition is_digit (c : ascii) : bool := in_range "0" "9" c.

Definition digit_val (c : ascii) : Z := Z.of_nat (code c) - Z.of_nat (code "0").

(** Whitespace of the C-level scanners behind [int()] and [float()]
    (tab, line feed, vertical tab, form feed, carriage return, space). *)
Definition c_isspace (c : ascii) : bool :=
  in_range "009" "013" c || Ascii.eqb c " ".

(** Whitespace of [str.strip()] within ASCII: the above and the separators
    28..31. *)
Definition str_isspace (c : ascii) : bool :=
  c_isspace c || in_range "028" "031" c.

Fixpoint lstrip (sp : ascii -> bool) (s : string) : string :=
  match s with
  | String c s' => if sp c then lstrip sp s' else s
  | EmptyString => s
  end.

Fixpoint rstrip (sp : ascii -> bool) (s : string) : string :=
  match s with
  | String c s' =>
      match rstrip sp s' with
      | EmptyString => if sp c then EmptyString else String c EmptyString
      | t => String c t
      end
  | EmptyString => EmptyString
  end.

(** Every character of [s] is an ASCII character. *)
Fixpoint is_ascii (s : string) : bool :=
  match s with
  | String c s' => (code c <? 128)%nat && is_ascii s'
  | EmptyString => true
  end.

(** [s.strip()] *)
Definition strip (s : string) : string := rstrip str_isspace (lstrip str_isspace s).

(** [sep.join(parts)] *)
Fixpoint join (sep : string) (parts : list string) : string :=
  match parts with
  | [] => ""
  | [p] => p
  | p :: rest => p ++ sep ++ join sep rest
  end.

(** [sub in s]: substring containment. *)
Fixpoint contains (s sub : string) : bool :=
  prefix sub s ||
  match s with
  | String _ s' => contains s' sub
  | EmptyString => false
  end.

(** [s.split(sep)] for a non-empty separator: the pieces between the
    non-overlapping occurrences of [sep], scanned from the left.  [skip]
    counts the characters of a separator still to be passed over and [cur]
    holds the piece being read. *)
Fixpoint split_go (sep : string) (skip : nat) (cur : string) (s : string) : list string :=
  match s with
  | EmptyString => [cur]
  | String c s' =>
      match skip with
      | S k => split_go sep k cur s'
      | O =>
          if prefix sep s
          then cur :: split_go sep (String.length sep - 1) "" s'
          else split_go sep 0 (cur ++ String c "") s'
      end
  end.

Definition split (sep s : string) : list string := split_go sep 0 "" s.

(** [str(n)] of an integer. *)
Definition of_Z (z : Z) : string := NilZero.string_of_int (Z.to_int z).

End Text.

(** ** Python conversions and comparisons on cells *)

Module Py.
Import Text.

Local Open Scope Z_scope.

(** *** binary64 *)

Definition prec : Z := 53.
Definition emax : Z := 1024.

Definition fzero : spec_float := S754_zero false.

(** [x < y] on floats; false as soon as one side is NaN. *)
Definition flt (x y : spec_float) : bool := SFltb x y.

(** Conversion of an integer to the nearest float (ties to even); a result
    beyond the largest finite float is an infinity here. *)
Definition float_of_Z (z : Z) : spec_float := binary_normalize prec emax z 0 false.

(** The float nearest (ties to even) to [m * 10^e10], for a magnitude
    [m >= 0] and the sign [neg]. *)
Definition float_of_decimal (neg : bool) (m : Z) (e10 : Z) : spec_float :=
  if m =? 0 then S754_zero neg
  else if 0 <=? e10 then
    binary_normalize prec emax ((if neg then - m else m) * 10 ^ e10) 0 false
  else
    let '(q, e, l) := SFdiv_core_binary prec emax m 0 (10 ^ (- e10)) 0 in
    binary_round_aux prec emax neg q e l.

(** *** [int(x)] *)

(** Default of [sys.get_int_max_str_digits()]. *)
Definition int_max_str_digits : nat := 4300.

(** The digit scanner of the integer parser: decimal digits in which single
    underscores may separate digits.  [prev_us] tells that the character just
    read was an underscore; the result is the value, the number of digits and
    the unread rest, or [None] on a doubled or trailing underscore. *)
Fixpoint scan_digits (s : string) (prev_us : bool) (acc : Z) (count : nat)
  : option (Z * nat * string) :=
  match s with
  | String c s' =>
      if is_digit c then scan_digits s' false (acc * 10 + digit_val c) (S count)
      else if Ascii.eqb c "_" then
        if prev_us then None else scan_digits s' true acc count
      else if prev_us then None else Some (acc, count, s)
  | EmptyString => if prev_us then None else Some (acc, count, s)
  end.

(** An optional sign; [true] stands for [-]. *)
Definition read_sign (s : string) : bool * string :=
  match s with
  | String "-" s' => (true, s')
  | String "+" s' => (false, s')
  | _ => (false, s)
  end.

Definition int_of_string (s : string) : option Z :=
  let '(neg, s1) := read_sign (lstrip c_isspace s) in
  match s1 with
  | String "_" _ => None
  | _ =>
      match scan_digits s1 false 0 0 with
      | Some (n, count, rest) =>
          if (count =? 0)%nat then None
          else if negb (String.eqb (lstrip c_isspace rest) "") then None
          else if (int_max_str_digits <? count)%nat then None
          else Some (if neg then - n else n)
      | None => None
      end
  end.

(** Truncation of a float towards zero; NaN and the infinities have none. *)
Definition int_of_float (f : spec_float) : option Z :=
  match f with
  | S754_zero _ => Some 0
  | S754_finite s m e =>
      let a := if 0 <=? e then Z.shiftl (Zpos m) e else Z.shiftr (Zpos m) (- e) in
      Some (if s then - a else a)
  | S754_infinity _ | S754_nan => None
  end.

(** [int(x)]; [None] stands for the exception it raises. *)
Definition int (v : value) : option Z :=
  match v with
  | VStr s => int_of_string s
  | VInt z => Some z
  | VFloat f => int_of_float f
  | VBool b => Some (if b then 1 else 0)
  end.

(** *** [float(x)] *)

(** Plain decimal digits: value, number of digits, unread rest. *)
Fixpoint read_digits (s : string) (acc : Z) (count : nat) : Z * nat * string :=
  match s with
  | String c s' =>
      if is_digit c then read_digits s' (acc * 10 + digit_val c) (S count)
      else (acc, count, s)
  | EmptyString => (acc, count, s)
  end.

Definition lower (c : ascii) : ascii :=
  if in_range "A" "Z" c then ascii_of_nat (code c + 32) else c.

Fixpoint lower_string (s : string) : string :=
  match s with
  | String c s' => String (lower c) (lower_string s')
  | EmptyString => EmptyString
  end.

(** Underscores in a float literal must stand between two digits; they are
    removed before the literal is read.  [prev] is the previous character. *)
Fixpoint drop_underscores (s : string) (prev : option ascii) : option string :=
  let prev_digit := match prev with Some p => is_digit p | None => false end in
  let prev_us := match prev with Some p => Ascii.eqb p "_" | None => false end in
  match s with
  | String c s' =>
      if Ascii.eqb c "_" then
        if prev_digit then drop_underscores s' (Some c) else None
      else if prev_us && negb (is_digit c) then None
      else option_map (String c) (drop_underscores s' (Some c))
  | EmptyString => if prev_us then None else Some EmptyString
  end.

(** The optional exponent part of a decimal literal: the exponent and the
    unread rest when [s] starts with a well-formed exponent, else exponent 0
    and [s] itself. *)
Definition read_exponent (s : string) : Z * string :=
  match s with
  | String c s1 =>
      if Ascii.eqb c "e" || Ascii.eqb c "E" then
        let '(eneg, s2) := read_sign s1 in
        let '(e, count, rest) := read_digits s2 0 0 in
        if (count =? 0)%nat then (0, s) else ((if eneg then - e else e), rest)
      else (0, s)
  | EmptyString => (0, s)
  end.

Definition float_of_string (s : string) : option spec_float :=
  match (if contains s "_" then drop_underscores s None else Some s) with
  | None => None
  | Some s0 =>
      let s1 := rstrip c_isspace (lstrip c_isspace s0) in
      let '(neg, s2) := read_sign s1 in
      let word := lower_string s2 in
      if String.eqb word "inf" || String.eqb word "infinity" then Some (S754_infinity neg)
      else if String.eqb word "nan" then Some S754_nan
      else
        let '(ip, n1, r1) := read_digits s2 0 0 in
        let '(m, n2, r2) :=
          match r1 with
          | String "." r => read_digits r ip 0
          | _ => (ip, O, r1)
          end in
        if (n1 + n2 =? 0)%nat then None
        else
          let '(e, r3) := read_exponent r2 in
          if String.eqb r3 "" then Some (float_of_decimal neg m (e - Z.of_nat n2))
          else None
  end.

(** [float(x)]; [None] stands for the exception it raises (an integer too
    large for a float overflows). *)
Definition float (v : value) : option spec_float :=
  match v with
  | VStr s => float_of_string s
  | VInt z =>
      match float_of_Z z with
      | S754_infinity _ => None
      | f => Some f
      end
  | VFloat f => Some f
  | VBool b => Some (float_of_Z (if b then 1 else 0))
  end.

(** *** [str(x)]

    The text of a float is not spelled out: it is made of digits, at most one
    point and an optional exponent [e+dd] or [e-dd], or is [inf] or [nan],
    possibly after a sign.  Such a text is never blank and never has the shape
    of a date, which is all that [validate_row] asks of it; [None] stands for
    that text. *)
Definition str (v : value) : option string :=
  match v with
  | VStr s => Some s
  | VInt z => Some (of_Z z)
  | VBool b => Some (if b then "True" else "False")
  | VFloat _ => None
  end.

(** *** Equality and hashing: what [x in seen_ids] compares

    Python compares numbers of different types by their exact value
    ([1 == 1.0 == True]), text by its characters, and NaN equals nothing.
    [ident] is the exact value of a cell: a dyadic number [m * 2^e] with [m]
    odd (or zero), an infinity, or text. *)

Inductive ident : Type :=
| KText (s : string)
| KNum (m : Z) (e : Z)
| KInf (neg : bool).

Fixpoint odd_part (m : positive) (e : Z) : positive * Z :=
  match m with
  | xO p => odd_part p (e + 1)
  | _ => (m, e)
  end.

Definition dyadic (neg : bool) (m : positive) (e : Z) : ident :=
  let '(m', e') := odd_part m e in
  KNum (if neg then Zneg m' else Zpos m') e'.

Definition ident_of (v : value) : option ident :=
  match v with
  | VStr s => Some (KText s)
  | VInt Z0 => Some (KNum 0 0)
  | VInt (Zpos p) => Some (dyadic false p 0)
  | VInt (Zneg p) => Some (dyadic true p 0)
  | VBool b => Some (if b then KNum 1 0 else KNum 0 0)
  | VFloat (S754_zero _) => Some (KNum 0 0)
  | VFloat (S754_finite s m e) => Some (dyadic s m e)
  | VFloat (S754_infinity s) => Some (KInf s)
  | VFloat S754_nan => None
  end.

Definition ident_eqb (a b : ident) : bool :=
  match a, b with
  | KText s, KText t => String.eqb s t
  | KNum m e, KNum m' e' => (m =? m') && (e =? e')
  | KInf s, KInf t => Bool.eqb s t
  | _, _ => false
  end.

(** [x == y] *)
Definition eq (x y : value) : bool :=
  match ident_of x, ident_of y with
  | Some a, Some b => ident_eqb a b
  | _, _ => false
  end.

End Py.

(** ** [datetime.strptime] for the directives the validator uses *)

Module Strptime.
Import Text.

Local Open Scope Z_scope.

Inductive directive : Type :=
| Day            (* %d *)
| Month          (* %m *)
| Year           (* %Y *)
| Lit (c : ascii).  (* any other character, to be met as it is *)

(** A format string as a sequence of directives; [None] for a directive
    other than [%d], [%m], [%Y], which none of the formats below has. *)
Fixpoint compile (fmt : string) : option (list directive) :=
  match fmt with
  | String "%" (String c rest) =>
      let d := if Ascii.eqb c "d" then Some Day
               else if Ascii.eqb c "m" then Some Month
               else if Ascii.eqb c "Y" then Some Year
               else None in
      match d, compile rest with
      | Some d, Some ds => Some (d :: ds)
      | _, _ => None
      end
  | String c rest => option_map (cons (Lit c)) (compile rest)
  | EmptyString => Some []
  end.

Record fields : Type := { year : Z; month : Z; day : Z }.

(** Fields a format leaves out default to 1 January 1900. *)
Definition defaults : fields := {| year := 1900; month := 1; day := 1 |}.

Definition is_char (a c : ascii) : bool := Ascii.eqb a c.

(** The number a one- or two-character group denotes; a leading space
    counts for nothing. *)
Definition digit_or_zero (c : ascii) : Z := if is_digit c then digit_val c else 0.

(** One regular-expression alternative of one or two character classes: the
    number read and the unread rest, or no match. *)
Definition one (p : ascii -> bool) (s : string) : list (Z * string) :=
  match s with
  | String c r => if p c then [(digit_val c, r)] else []
  | EmptyString => []
  end.

Definition two (p1 p2 : ascii -> bool) (s : string) : list (Z * string) :=
  match s with
  | String c1 (String c2 r) =>
      if p1 c1 && p2 c2 then [(10 * digit_or_zero c1 + digit_val c2, r)] else []
  | _ => []
  end.

(** [%d] is [3[0-1]|[1-2]\d|0[1-9]|[1-9]| [1-9]]: the matches of the
    alternatives at the head of [s], in the order the matcher tries them. *)
Definition day_alts (s : string) : list (Z * string) :=
  two (is_char "3") (in_range "0" "1") s
  ++ two (in_range "1" "2") is_digit s
  ++ two (is_char "0") (in_range "1" "9") s
  ++ one (in_range "1" "9") s
  ++ two (is_char " ") (in_range "1" "9") s.

(** [%m] is [1[0-2]|0[1-9]|[1-9]]. *)
Definition month_alts (s : string) : list (Z * string) :=
  two (is_char "1") (in_range "0" "2") s
  ++ two (is_char "0") (in_range "1" "9") s
  ++ one (in_range "1" "9") s.

(** [%Y] is [\d\d\d\d]. *)
Definition year_alts (s : string) : list (Z * string) :=
  match s with
  | String c1 (String c2 (String c3 (String c4 r))) =>
      if is_digit c1 && is_digit c2 && is_digit c3 && is_digit c4
      then [(1000 * digit_val c1 + 100 * digit_val c2 + 10 * digit_val c3 + digit_val c4, r)]
      else []
  | _ => []
  end.

(** The backtracking match of a compiled format at the head of [s]: every
    way to match, first choice first, each with the fields read and the
    unread rest.  The matcher reports the head of this list. *)
Fixpoint run (ds : list directive) (t : fields) (s : string) : list (fields * string) :=
  match ds with
  | [] => [(t, s)]
  | Day :: ds' =>
      flat_map (fun '(n, r) => run ds' {| year := year t; month := month t; day := n |} r)
               (day_alts s)
  | Month :: ds' =>
      flat_map (fun '(n, r) => run ds' {| year := year t; month := n; day := day t |} r)
               (month_alts s)
  | Year :: ds' =>
      flat_map (fun '(n, r) => run ds' {| year := n; month := month t; day := day t |} r)
               (year_alts s)
  | Lit c :: ds' =>
      match s with
      | String c' r => if Ascii.eqb c c' then run ds' t r else []
      | EmptyString => []
      end
  end.

Definition is_leap (y : Z) : bool :=
  (y mod 4 =? 0) && (negb (y mod 100 =? 0) || (y mod 400 =? 0)).

Definition days_in_month (y m : Z) : Z :=
  match m with
  | 2 => if is_leap y then 29 else 28
  | 4 | 6 | 9 | 11 => 30
  | _ => 31
  end.

(** The date constructor accepts years 1..9999, months 1..12 and the days
    the month has. *)
Definition date_exists (t : fields) : bool :=
  (1 <=? year t) && (year t <=? 9999)
  && (1 <=? month t) && (month t <=? 12)
  && (1 <=? day t) && (day t <=? days_in_month (year t) (month t)).

(** [datetime.strptime(s, fmt)]; [None] stands for the [ValueError] raised
    when the format does not match at the head of [s], when text remains
    after the match, or when the fields name no calendar date. *)
Definition strptime (s fmt : string) : option fields :=
  match compile fmt with
  | None => None
  | Some ds =>
      match run ds defaults s with
      | [] => None
      | (t, rest) :: _ =>
          if String.eqb rest "" then (if date_exists t then Some t else None) else None
      end
  end.

End Strptime.

(** ** The validator *)

(** One row of the table: the five required columns. *)
Record Row : Type := {
  order_id : value;
  item : value;
  date : value;
  quantity : value;
  price : value
}.

Definition formats : list string := ["%d/%m/%Y"; "%m-%d-%Y"].

(** The loop of [validate_date] over the formats still to try.  A failing
    [strptime] is caught and the next format tried; so it is for a float,
    whose text has the shape of neither format. *)
Fixpoint try_formats (value : value) (fmts : list string) : bool :=
  match fmts with
  | fmt :: rest =>
      match Py.str value with
      | Some text =>
          match Strptime.strptime text fmt with
          | Some _ => true
          | None => try_formats value rest
          end
      | None => try_formats value rest
      end
  | [] => false
  end.

Definition validate_date (value : value) : bool := try_formats value formats.

(** The set [seen_ids].  Membership compares with [==]; adding stores the
    element unless an equal one is stored already. *)
Definition id_set : Type := list value.

Definition set_mem (x : value) (s : id_set) : bool := existsb (fun y => Py.eq y x) s.

Definition set_add (x : value) (s : id_set) : id_set :=
  if set_mem x s then s else s ++ [x].

(** [str(x).strip() == ""]; the text of a float is never blank. *)
Definition is_blank (v : value) : bool :=
  match Py.str v with
  | Some text => String.eqb (Text.strip text) ""
  | None => false
  end.

(** The body of [validate_row] up to its last check: the list [errors] and
    the updated [seen_ids], which the caller shares with the next rows. *)
Definition row_errors (row : Row) (seen_ids : id_set) : list string * id_set :=
  let errors : list string := [] in
  (* order_id *)
  let '(errors, seen_ids) :=
    if isna (order_id row) then (errors ++ ["Missing order_id"], seen_ids)
    else
      let errors :=
        if set_mem (order_id row) seen_ids then errors ++ ["Duplicate order_id"] else errors in
      (errors, set_add (order_id row) seen_ids) in
  (* item *)
  let errors :=
    if isna (item row) || is_blank (item row) then errors ++ ["Missing item"] else errors in
  (* date *)
  let errors :=
    if isna (date row) || negb (validate_date (date row))
    then errors ++ ["Invalid date (dd/mm/yyyy or mm-dd-yyyy)"] else errors in
  (* quantity *)
  let errors :=
    match Py.int (quantity row) with
    | Some qty => if (qty <? 0)%Z then errors ++ ["Negative quantity"] else errors
    | None => errors ++ ["Invalid quantity"]
    end in
  (* price *)
  let errors :=
    match Py.float (price row) with
    | Some price => if Py.flt price Py.fzero then errors ++ ["Negative price"] else errors
    | None => errors ++ ["Invalid price"]
    end in
  (errors, seen_ids).

(** [validate_row]: the status, the message and the updated [seen_ids]. *)
Definition validate_row (row : Row) (seen_ids : id_set) : string * string * id_set :=
  let '(errors, seen_ids) := row_errors row seen_ids in
  match errors with
  | _ :: _ => ("Invalid", Text.join "; " errors, seen_ids)
  | [] => ("Valid", "No errors", seen_ids)
  end.

(** ** The table *)

(** The state of the validation loop: [seen_ids], [statuses], [messages]. *)
Definition loop_state : Type := id_set * list string * list string.

(** One turn of the loop.  The progress bar and the status text it also
    updates have no part in the result. *)
Definition loop_step (st : loop_state) (row : Row) : loop_state :=
  let '(seen_ids, statuses, messages) := st in
  let '(status, msg, seen_ids) := validate_row row seen_ids in
  (seen_ids, statuses ++ [status], messages ++ [msg]).

(** The loop over [df.iterrows()], from an empty [seen_ids]. *)
Definition validation_loop (df : list Row) : loop_state :=
  fold_left loop_step df ([], [], []).

(** A row of the frame once the columns [status] and [error_message] are
    set; [index] is its label, the position in the uploaded table. *)
Record Entry : Type := {
  index : nat;
  data : Row;
  status : string;
  error_message : string
}.

(** [df["status"] = statuses; df["error_message"] = messages].  The
    assignment wants one element per row; [validated_length] below shows
    the loop delivers that. *)
Definition assign (df : list Row) (statuses messages : list string) : list Entry :=
  map (fun '(i, row, (st, msg)) =>
         {| index := i; data := row; status := st; error_message := msg |})
      (combine (combine (seq 0 (List.length df)) df) (combine statuses messages)).

(** The frame after the loop and the two assignments. *)
Definition validated (df : list Row) : list Entry :=
  let '(_, statuses, messages) := validation_loop df in
  assign df statuses messages.

(** *** Statistics *)

(** [(df["status"] == s).sum()] *)
Definition count_status (s : string) (df : list Entry) : Z :=
  Z.of_nat (List.length (filter (fun e => String.eqb (status e) s) df)).

(** [a / b] on counts: both become floats and are divided.  A zero divisor
    ([ZeroDivisionError] for plain numbers, a warning for the frame's counts)
    is [None]. *)
Definition true_divide (a b : Z) : option spec_float :=
  if (b =? 0)%Z then None
  else Some (SFdiv Py.prec Py.emax (Py.float_of_Z a) (Py.float_of_Z b)).

(** [x * 100] *)
Definition times_100 (x : spec_float) : spec_float :=
  SFmul Py.prec Py.emax x (Py.float_of_Z 100).

(** [validation_rate = (valid / total * 100) if total > 0 else 0] *)
Definition validation_rate (valid total : Z) : option value :=
  if (0 <? total)%Z
  then option_map (fun q => VFloat (times_100 q)) (true_divide valid total)
  else Some (VInt 0).

Record Stats : Type := {
  total : Z;
  valid : Z;
  invalid : Z;
  rate : option value
}.

(** [total], [valid], [invalid] and [validation_rate] of the validated frame. *)
Definition stats (df : list Entry) : Stats :=
  let total := Z.of_nat (List.length df) in
  let valid := count_status "Valid" df in
  let invalid := count_status "Invalid" df in
  {| total := total; valid := valid; invalid := invalid;
     rate := validation_rate valid total |}.

(** *** Error tally and error filter *)

(** [df[df["status"] == "Invalid"]] *)
Definition invalid_df (df : list Entry) : list Entry :=
  filter (fun e => String.eqb (status e) "Invalid") df.

(** The reasons of a message, as both pages recover them: [msg.split("; ")]. *)
Definition reasons (msg : string) : list string := Text.split "; " msg.

(** [error_list]: the reasons of all invalid rows, in order. *)
Definition error_list (df : list Entry) : list string :=
  flat_map (fun e => reasons (error_message e)) (invalid_df df).

(** [Counter(error_list)]: a tally that keeps the keys in the order of their
    first occurrence. *)
Fixpoint tally (key : string) (counts : list (string * nat)) : list (string * nat) :=
  match counts with
  | (k, n) :: rest => if String.eqb k key then (k, S n) :: rest else (k, n) :: tally key rest
  | [] => [(key, 1)]
  end.

Definition Counter (items : list string) : list (string * nat) :=
  fold_left (fun counts key => tally key counts) items [].

Definition error_counts (df : list Entry) : list (string * nat) := Counter (error_list df).

Definition keys (counts : list (string * nat)) : list string := map fst counts.

(** The filter of the "Errors" page: with a selection, the rows whose message
    contains one of the selected texts; without, all rows. *)
Definition filtered_df (selected_errors : list string) (invalid_df : list Entry) : list Entry :=
  match selected_errors with
  | _ :: _ =>
      filter (fun e => existsb (fun err => Text.contains (error_message e) err) selected_errors)
             invalid_df
  | [] => invalid_df
  end.

(** *** Required columns *)

Definition required_cols : list string := ["order_id"; "date"; "item"; "quantity"; "price"].

(** [col in df.columns] *)
Definition has_column (columns : list string) (col : string) : bool :=
  existsb (String.eqb col) columns.

(** [missing = [col for col in required_cols if col not in df.columns]] *)
Definition missing_cols (columns : list string) : list string :=
  filter (fun col => negb (has_column columns col)) required_cols.

(** The check of the required columns: the error shown before the run is
    stopped, or [None] when validation goes ahead. *)
Definition check_columns (columns : list string) : option string :=
  if negb (forallb (has_column columns) required_cols)
  then Some ("Missing columns: " ++ Text.join ", " (missing_cols columns))%string
  else None.

(** *** Rows shown and exported *)

(** The choice between "All rows", "Valid only" and "Invalid only" of the
    preview, and between "All data", "Valid only" and "Invalid only" of the
    export. *)
Definition select_rows (filter_option : string) (df : list Entry) : list Entry :=
  if String.eqb filter_option "Valid only"
  then filter (fun e => String.eqb (status e) "Valid") df
  else if String.eqb filter_option "Invalid only"
  then filter (fun e => String.eqb (status e) "Invalid") df
  else df.

(** *** The "Errors" page *)

(** [all_errors]: the reasons of the rows of [invalid_df], in order. *)
Definition all_errors (invalid_df : list Entry) : list string :=
  flat_map (fun e => reasons (error_message e)) invalid_df.

(** [sorted(...)] on texts, which compare character by character. *)
Fixpoint insert_sorted (x : string) (l : list string) : list string :=
  match l with
  | y :: rest => if String.leb x y then x :: l else y :: insert_sorted x rest
  | [] => [x]
  end.

Definition sorted (l : list string) : list string := fold_right insert_sorted [] l.

(** [unique_errors = sorted(set(all_errors))]: a set holds each text once,
    and sorting makes the order in which it gives them immaterial. *)
Definition unique_errors (invalid_df : list Entry) : list string :=
  sorted (nodup string_dec (all_errors invalid_df)).

(** The selection the multiselect starts with:
    [unique_errors[:2] if len(unique_errors) > 1 else unique_errors]. *)
Definition default_selection (unique_errors : list string) : list string :=
  if (1 <? List.length unique_errors)%nat then firstn 2 unique_errors else unique_errors.

(** [error_details]: one record, row label and reason, for every reason of
    every row shown. *)
Definition error_details (filtered_df : list Entry) : list (nat * string) :=
  flat_map (fun e => map (fun error => (index e, error)) (reasons (error_message e)))
           filtered_df.

(** The quick fixes: "Fill in missing values", "Remove duplicate entries",
    "Use dd/mm/yyyy or mm-dd-yyyy format". *)
Inductive suggestion : Type :=
| FillMissing
| RemoveDuplicates
| ReformatDate.

(** The suggestion written for one error of the frequency list, if any. *)
Definition quick_fix (error : string) : option suggestion :=
  if Text.contains error "Missing" then Some FillMissing
  else if Text.contains error "Duplicate" then Some RemoveDuplicates
  else if Text.contains error "Invalid date" then Some ReformatDate
  else None.

(** * Definitions for the statements

    None of the definitions of this part is part of the program: they name
    what the program is compared with, the rows it is tried on, and what the
    proofs go through. *)

(** ** The five field checks, one by one *)

Definition check_order_id (row : Row) (seen_ids : id_set) : list string :=
  if isna (order_id row) then ["Missing order_id"]
  else if set_mem (order_id row) seen_ids then ["Duplicate order_id"]
  else [].

Definition check_item (row : Row) : list string :=
  if isna (item row) || is_blank (item row) then ["Missing item"] else [].

Definition check_date (row : Row) : list string :=
  if isna (date row) || negb (validate_date (date row))
  then ["Invalid date (dd/mm/yyyy or mm-dd-yyyy)"] else [].

Definition check_quantity (row : Row) : list string :=
  match Py.int (quantity row) with
  | None => ["Invalid quantity"]
  | Some qty => if (qty <? 0)%Z then ["Negative quantity"] else []
  end.

Definition check_price (row : Row) : list string :=
  match Py.float (price row) with
  | None => ["Invalid price"]
  | Some p => if Py.flt p Py.fzero then ["Negative price"] else []
  end.

(** The reason texts the validator can give. *)
Definition reason_texts : list string :=
  ["Missing order_id"; "Duplicate order_id"; "Missing item";
   "Invalid date (dd/mm/yyyy or mm-dd-yyyy)";
   "Negative quantity"; "Invalid quantity"; "Negative price"; "Invalid price"].

(** Every list of reasons a row can get: at most one reason about the
    identifier, the item, the date, the quantity and the price, in this
    order. *)
Definition order_id_reasons : list (list string) :=
  [[]; ["Missing order_id"]; ["Duplicate order_id"]].
Definition item_reasons : list (list string) := [[]; ["Missing item"]].
Definition date_reasons : list (list string) :=
  [[]; ["Invalid date (dd/mm/yyyy or mm-dd-yyyy)"]].
Definition quantity_reasons : list (list string) :=
  [[]; ["Negative quantity"]; ["Invalid quantity"]].
Definition price_reasons : list (list string) :=
  [[]; ["Negative price"]; ["Invalid price"]].

Definition reason_lists : list (list string) :=
  flat_map (fun a =>
  flat_map (fun b =>
  flat_map (fun c =>
  flat_map (fun d =>
  map (fun e => a ++ b ++ c ++ d ++ e) price_reasons)
    quantity_reasons) date_reasons) item_reasons) order_id_reasons.

Definition mem_string (x : string) (l : list string) : bool := existsb (String.eqb x) l.

Fixpoint list_eqb (l l' : list string) : bool :=
  match l, l' with
  | [], [] => true
  | x :: r, x' :: r' => String.eqb x x' && list_eqb r r'
  | _, _ => false
  end.

(** Two facts to be checked on each of the reason lists: splitting the joined
    message gives the list back, and a reason text occurs in the joined message
    exactly when it is an element of the list. *)
Definition splits_back (l : list string) : bool :=
  match l with
  | [] => true
  | _ => list_eqb (reasons (Text.join "; " l)) l
  end.

Definition contains_is_member (l : list string) : bool :=
  forallb (fun r => Bool.eqb (Text.contains (Text.join "; " l) r) (mem_string r l)) reason_texts.

Definition all_reason_texts (l : list string) : bool :=
  forallb (fun r => mem_string r reason_texts) l.

(** ** The table, row by row

    The verdicts of the rows [df], the first of which has label [i], when
    [seen_ids] holds the identifiers of the rows before them. *)
Fixpoint entries_from (i : nat) (seen_ids : id_set) (df : list Row) : list Entry :=
  match df with
  | row :: rest =>
      let '(st, msg, seen_ids') := validate_row row seen_ids in
      {| index := i; data := row; status := st; error_message := msg |}
        :: entries_from (S i) seen_ids' rest
  | [] => []
  end.

(** What one turn of the loop does to [seen_ids]. *)
Definition step_seen (s : id_set) (row : Row) : id_set := snd (validate_row row s).

(** The entry of the row [row] with label [i], validated against [s]. *)
Definition entry (i : nat) (row : Row) (s : id_set) : Entry :=
  {| index := i; data := row;
     status := fst (fst (validate_row row s));
     error_message := snd (fst (validate_row row s)) |}.

(** [seen_ids] once the rows [df] are through the loop. *)
Definition seen_after (df : list Row) : id_set := fst (fst (validation_loop df)).

(** The reasons of the row at position [i] of the validated table. *)
Definition reasons_at (df : list Row) (i : nat) : list string :=
  match nth_error (validated df) i with
  | Some e => reasons (error_message e)
  | None => []
  end.

(** The reasons of the verdict [validate_row] returns. *)
Definition row_reasons (row : Row) (seen_ids : id_set) : list string :=
  reasons (snd (fst (validate_row row seen_ids))).

(** The rate as a plain quotient of the two counts. *)
Definition plain_quotient (valid total : Z) : option value :=
  option_map VFloat (true_divide valid total).

(** Rows to try the validator on: a row that passes every check, the same
    row with a blank identifier, and a row of missing cells. *)
Definition good_row : Row :=
  {| order_id := VInt 1001; item := VStr "pen"; date := VStr "31/12/2024";
     quantity := VInt 2; price := VFloat (S754_finite false 3 (-1)) |}.

Definition blank_id_row : Row :=
  {| order_id := VStr " "; item := VStr "pen"; date := VStr "31/12/2024";
     quantity := VInt 2; price := VFloat (S754_finite false 3 (-1)) |}.

Definition missing_row : Row :=
  {| order_id := NaN; item := NaN; date := NaN; quantity := NaN; price := NaN |}.

Definition with_id (v : value) (row : Row) : Row :=
  {| order_id := v; item := item row; date := date row;
     quantity := quantity row; price := price row |}.

Definition with_quantity (v : value) (row : Row) : Row :=
  {| order_id := order_id row; item := item row; date := date row;
     quantity := v; price := price row |}.

Definition with_date (v : value) (row : Row) : Row :=
  {| order_id := order_id row; item := item row; date := v;
     quantity := quantity row; price := price row |}.

Definition with_item (v : value) (row : Row) : Row :=
  {| order_id := order_id row; item := v; date := date row;
     quantity := quantity row; price := price row |}.

(** A cell whose text, if it is text, is ASCII. *)
Definition ascii_cell (v : value) : bool :=
  match v with
  | VStr s => Text.is_ascii s
  | _ => true
  end.

(** The integer a cell denotes when it is an integer literal: an integer, or
    text that [int()] reads.  A float cell, whose text has a point, an exponent
    or is [inf] or [nan], is no integer literal, and neither is a boolean. *)
Definition integer_literal (v : value) : option Z :=
  match v with
  | VStr s => Py.int_of_string s
  | VInt z => Some z
  | VFloat _ | VBool _ => None
  end.

(** An identifier that is absent, or text that is blank. *)
Definition blank_or_absent (v : value) : Prop :=
  isna v = true \/ exists s, v = VStr s /\ Text.strip s = "".

(** ** Dates as whole texts *)

Module DateText.
Import Text Strptime.

Local Open Scope Z_scope.

(** The day a whole field text spells: one digit 1-9, possibly after a zero
    or a space, or two digits from 10 to 31. *)
Definition day_text (a : string) : option Z :=
  match a with
  | String c EmptyString =>
      if in_range "1" "9" c then Some (digit_val c) else None
  | String c1 (String c2 EmptyString) =>
      if (is_char "0" c1 || is_char " " c1) && in_range "1" "9" c2 then Some (digit_val c2)
      else if in_range "1" "2" c1 && is_digit c2 then Some (10 * digit_val c1 + digit_val c2)
      else if is_char "3" c1 && in_range "0" "1" c2 then Some (30 + digit_val c2)
      else None
  | _ => None
  end.

(** The month a whole field text spells: 1-9, possibly after a zero, or 10
    to 12. *)
Definition month_text (a : string) : option Z :=
  match a with
  | String c EmptyString =>
      if in_range "1" "9" c then Some (digit_val c) else None
  | String c1 (String c2 EmptyString) =>
      if is_char "0" c1 && in_range "1" "9" c2 then Some (digit_val c2)
      else if is_char "1" c1 && in_range "0" "2" c2 then Some (10 + digit_val c2)
      else None
  | _ => None
  end.

(** The year a whole field text spells: exactly four digits. *)
Definition year_text (a : string) : option Z :=
  match a with
  | String c1 (String c2 (String c3 (String c4 EmptyString))) =>
      if is_digit c1 && is_digit c2 && is_digit c3 && is_digit c4
      then Some (1000 * digit_val c1 + 100 * digit_val c2 + 10 * digit_val c3 + digit_val c4)
      else None
  | _ => None
  end.

(** The whole of [s] is a day, a month and a year of an existing date,
    separated by [/]. *)
Definition parses_dmy (s : string) : Prop :=
  exists (a b c : string) (d m y : Z),
    s = (a ++ "/" ++ b ++ "/" ++ c)%string
    /\ day_text a = Some d /\ month_text b = Some m /\ year_text c = Some y
    /\ date_exists {| year := y; month := m; day := d |} = true.

(** The whole of [s] is a month, a day and a year of an existing date,
    separated by [-]. *)
Definition parses_mdy (s : string) : Prop :=
  exists (a b c : string) (d m y : Z),
    s = (a ++ "-" ++ b ++ "-" ++ c)%string
    /\ month_text a = Some m /\ day_text b = Some d /\ year_text c = Some y
    /\ date_exists {| year := y; month := m; day := d |} = true.

(** [c] occurs in [s]. *)
Fixpoint occurs (c : ascii) (s : string) : bool :=
  match s with
  | String c' s' => Ascii.eqb c c' || occurs c s'
  | EmptyString => false
  end.

(** What it means for a compiled format to read the fields [t'] off the head
    of [s] and leave [r], starting from the fields [t]: each directive reads a
    whole field text, each literal its character. *)
Fixpoint reads (ds : list directive) (t : fields) (s : string) (t' : fields) (r : string)
  : Prop :=
  match ds with
  | [] => t' = t /\ r = s
  | Day :: ds' =>
      exists a n s1, s = (a ++ s1)%string /\ day_text a = Some n
        /\ reads ds' {| year := year t; month := month t; day := n |} s1 t' r
  | Month :: ds' =>
      exists a n s1, s = (a ++ s1)%string /\ month_text a = Some n
        /\ reads ds' {| year := year t; month := n; day := day t |} s1 t' r
  | Year :: ds' =>
      exists a n s1, s = (a ++ s1)%string /\ year_text a = Some n
        /\ reads ds' {| year := n; month := month t; day := day t |} s1 t' r
  | Lit c :: ds' => exists s1, s = String c s1 /\ reads ds' t s1 t' r
  end.

(** [strptime] once the format is compiled. *)
Definition outcome (ds : list directive) (s : string) : option fields :=
  match run ds defaults s with
  | [] => None
  | (t, rest) :: _ =>
      if String.eqb rest "" then (if date_exists t then Some t else None) else None
  end.

End DateText.

(** ** Counting rows and reasons *)

(** [df[df["status"] == "Valid"]] *)
Definition valid_df (df : list Entry) : list Entry :=
  filter (fun e => String.eqb (status e) "Valid") df.

(** The reasons of the entry include [r]. *)
Definition has_reason (r : string) (e : Entry) : bool :=
  mem_string r (reasons (error_message e)).

(** [counts[key]], 0 for a key that was never counted. *)
Fixpoint count_of (key : string) (counts : list (string * nat)) : nat :=
  match counts with
  | (k, n) :: rest => if String.eqb k key then n else count_of key rest
  | [] => 0
  end.

(** No two stored identifiers are equal. *)
Fixpoint all_distinct (s : id_set) : bool :=
  match s with
  | x :: rest => negb (set_mem x rest) && all_distinct rest
  | [] => true
  end.

(** A list of reasons has no repeats. *)
Fixpoint no_repeat (l : list string) : bool :=
  match l with
  | x :: rest => negb (mem_string x rest) && no_repeat rest
  | [] => true
  end.

(** What is to be checked on each of the reason lists besides: at most five
    reasons, none twice, and not both reasons about the identifier. *)
Definition well_shaped (l : list string) : bool :=
  (List.length l <=? 5)%nat && no_repeat l
  && negb (mem_string "Missing order_id" l && mem_string "Duplicate order_id" l).

Definition with_price (v : value) (row : Row) : Row :=
  {| order_id := order_id row; item := item row; date := date row;
     quantity := quantity row; price := v |}.

(** * Properties *)

(** ** The model at work *)

Example int_of_text :
  map Py.int [VStr " -5 "; VStr "abc"; VStr "1_000"; VStr "+007"; VStr "5.0"; VStr ""; VStr "- 5"]
  = [Some (-5)%Z; None; Some 1000%Z; Some 7%Z; None; None; None].
Proof. reflexivity. Qed.

Example int_of_number :
  map Py.int [VInt 3; VFloat (S754_finite true 3 (-1)); VBool true; NaN;
              VFloat (S754_infinity false)]
  = [Some 3%Z; Some (-1)%Z; Some 1%Z; None; None].
Proof. reflexivity. Qed.

Example float_of_text :
  map Py.float [VStr "0.1"; VStr "-0.5"; VStr "1e400"; VStr "-1e-400"; VStr " nan ";
                VStr "1_0.5"; VStr "1e"; VStr "."; VStr "$3"]
  = [Some (S754_finite false 7205759403792794 (-56));
     Some (S754_finite true 4503599627370496 (-53));
     Some (S754_infinity false); Some (S754_zero true); Some S754_nan;
     Some (S754_finite false 5910974510923776 (-49)); None; None; None].
Proof. vm_compute. reflexivity. Qed.

Example equal_identifiers :
  map (Py.eq (VInt 1))
      [VInt 1; VFloat (S754_finite false 4503599627370496 (-52)); VBool true; VStr "1"; NaN]
  = [true; true; true; false; false]
  /\ Py.eq NaN NaN = false.
Proof. split; reflexivity. Qed.

Example dates_tried :
  map (fun s => validate_date (VStr s))
      ["31/12/2024"; "12-31-2024"; "2024/12/31"; "29/02/2024"; "29/02/2023"; "3/4/2024";
       " 5/1/2024"; "31/12/2024 "; "31-12-2024"; "12/31/2024"; "01/01/0000"; "31/12/24"]
  = [true; true; false; true; false; true; true; false; false; false; false; false].
Proof. vm_compute. reflexivity. Qed.

Example text_split_join :
  Text.split "; " "Missing item; Invalid price" = ["Missing item"; "Invalid price"]
  /\ Text.split "; " "No errors" = ["No errors"]
  /\ Text.join "; " ["Missing item"; "Invalid price"] = "Missing item; Invalid price"
  /\ Text.contains "Missing item; Invalid price" "Invalid price" = true
  /\ Text.strip "  pen " = "pen".
Proof. repeat split; reflexivity. Qed.

Example rows_tried :
  validate_row good_row [] = ("Valid", "No errors", [VInt 1001])
  /\ fst (validate_row (with_quantity (VStr "-5") good_row) [])
     = ("Invalid", "Negative quantity")
  /\ fst (validate_row (with_date (VStr "2024/12/31") (with_quantity (VStr "abc") good_row))
                       [VInt 1001])
     = ("Invalid",
        "Duplicate order_id; Invalid date (dd/mm/yyyy or mm-dd-yyyy); Invalid quantity")
  /\ validate_row missing_row []
     = ("Invalid",
        "Missing order_id; Missing item; Invalid date (dd/mm/yyyy or mm-dd-yyyy); Invalid quantity",
        []).
Proof. vm_compute. repeat split; reflexivity. Qed.

Example table_tried :
  map (fun e => (index e, status e))
      (validated [good_row; good_row; missing_row; with_id (VInt 7) good_row])
  = [(0, "Valid"); (1, "Invalid"); (2, "Invalid"); (3, "Valid")]
  /\ error_counts (validated [good_row; good_row; missing_row])
     = [("Duplicate order_id", 1); ("Missing order_id", 1); ("Missing item", 1);
        ("Invalid date (dd/mm/yyyy or mm-dd-yyyy)", 1); ("Invalid quantity", 1)]
  /\ rate (stats (validated [good_row; good_row]))
     = Some (VFloat (Py.float_of_Z 50)).
Proof. vm_compute. repeat split; reflexivity. Qed.

(** ** Equality of identifiers *)

Section IdentEquality.

Lemma ident_eqb_spec (a b : Py.ident) : Py.ident_eqb a b = true <-> a = b.
Proof.
  destruct a as [s|m e|n], b as [t|m' e'|n']; simpl;
    try (split; intro H; [discriminate | inversion H]).
  - rewrite String.eqb_eq. split; congruence.
  - rewrite andb_true_iff, !Z.eqb_eq. split; [intros [-> ->] | intros H; inversion H]; auto.
  - rewrite Bool.eqb_true_iff. split; congruence.
Qed.

Lemma py_eq_spec (x y : value) :
  Py.eq x y = true <-> exists a, Py.ident_of x = Some a /\ Py.ident_of y = Some a.
Proof.
  unfold Py.eq. split.
  - destruct (Py.ident_of x) as [a|], (Py.ident_of y) as [b|]; try discriminate.
    intro H. apply ident_eqb_spec in H. subst. now exists b.
  - intros (a & -> & ->). now apply ident_eqb_spec.
Qed.

Lemma ident_of_present (x : value) : isna x = false -> exists a, Py.ident_of x = Some a.
Proof.
  destruct x as [s|z|f|b]; simpl; intros H.
  - eauto.
  - destruct z; eauto.
  - destruct f; try discriminate; eauto.
  - destruct b; eauto.
Qed.

Lemma ident_of_absent (x : value) : isna x = true -> Py.ident_of x = None.
Proof.
  destruct x as [s|z|f|b]; simpl; try discriminate.
  destruct f; try discriminate. reflexivity.
Qed.

Lemma py_eq_refl (x : value) : isna x = false -> Py.eq x x = true.
Proof.
  intros H. apply py_eq_spec. destruct (ident_of_present x H) as [a Ha]. eauto.
Qed.

Lemma py_eq_sym (x y : value) : Py.eq x y = Py.eq y x.
Proof.
  destruct (Py.eq x y) eqn:E, (Py.eq y x) eqn:E'; trivial.
  - apply py_eq_spec in E as (a & Hx & Hy).
    assert (Py.eq y x = true) by (apply py_eq_spec; eauto). congruence.
  - apply py_eq_spec in E' as (a & Hy & Hx).
    assert (Py.eq x y = true) by (apply py_eq_spec; eauto). congruence.
Qed.

Lemma py_eq_trans (x y z : value) : Py.eq x y = true -> Py.eq y z = true -> Py.eq x z = true.
Proof.
  intros H1 H2. apply py_eq_spec in H1 as (a & Hx & Hy), H2 as (b & Hy' & Hz).
  apply py_eq_spec. exists a. split; congruence.
Qed.

Lemma py_eq_absent_l (x y : value) : isna x = true -> Py.eq x y = false.
Proof.
  intros H. unfold Py.eq. now rewrite (ident_of_absent x H).
Qed.

Lemma py_eq_absent_r (x y : value) : isna y = true -> Py.eq x y = false.
Proof. intros H. rewrite py_eq_sym. now apply py_eq_absent_l. Qed.

(** Membership after [add]: the element added, or one that was there. *)
Lemma set_mem_add (x y : value) (s : id_set) :
  set_mem y (set_add x s) = Py.eq x y || set_mem y s.
Proof.
  unfold set_add. destruct (set_mem x s) eqn:Hx.
  - destruct (Py.eq x y) eqn:Hxy; trivial. simpl.
    unfold set_mem in *. apply existsb_exists in Hx as (w & Hw & Hwx).
    apply existsb_exists. exists w. split; trivial.
    eapply py_eq_trans; eauto.
  - unfold set_mem. rewrite existsb_app. simpl.
    rewrite orb_false_r. apply orb_comm.
Qed.

End IdentEquality.

(** ** One row *)

Section OneRow.

Variable row : Row.
Variable seen_ids : id_set.

(** The list [errors] is the reasons of the five checks, in their order. *)
Lemma row_errors_checks :
  fst (row_errors row seen_ids)
  = check_order_id row seen_ids ++ check_item row ++ check_date row
      ++ check_quantity row ++ check_price row.
Proof.
  unfold row_errors, check_order_id, check_item, check_date, check_quantity, check_price.
  destruct (isna (order_id row)); [|destruct (set_mem (order_id row) seen_ids)];
    destruct (isna (item row) || is_blank (item row));
    destruct (isna (date row) || negb (validate_date (date row)));
    (destruct (Py.int (quantity row)) as [q|]; [destruct (q <? 0)%Z|]);
    (destruct (Py.float (price row)) as [p|]; [destruct (Py.flt p Py.fzero)|]);
    reflexivity.
Qed.

(** The identifier is stored exactly when it is present. *)
Lemma row_errors_seen :
  snd (row_errors row seen_ids)
  = if isna (order_id row) then seen_ids else set_add (order_id row) seen_ids.
Proof.
  unfold row_errors.
  destruct (isna (order_id row)); [|destruct (set_mem (order_id row) seen_ids)];
    destruct (isna (item row) || is_blank (item row));
    destruct (isna (date row) || negb (validate_date (date row)));
    (destruct (Py.int (quantity row)) as [q|]; [destruct (q <? 0)%Z|]);
    (destruct (Py.float (price row)) as [p|]; [destruct (Py.flt p Py.fzero)|]);
    reflexivity.
Qed.

Lemma row_errors_listed : In (fst (row_errors row seen_ids)) reason_lists.
Proof.
  rewrite row_errors_checks. unfold reason_lists.
  apply in_flat_map. exists (check_order_id row seen_ids). split.
  { unfold check_order_id, order_id_reasons.
    destruct (isna (order_id row)); [|destruct (set_mem (order_id row) seen_ids)];
      simpl; auto. }
  apply in_flat_map. exists (check_item row). split.
  { unfold check_item, item_reasons.
    destruct (isna (item row) || is_blank (item row)); simpl; auto. }
  apply in_flat_map. exists (check_date row). split.
  { unfold check_date, date_reasons.
    destruct (isna (date row) || negb (validate_date (date row))); simpl; auto. }
  apply in_flat_map. exists (check_quantity row). split.
  { unfold check_quantity, quantity_reasons.
    destruct (Py.int (quantity row)) as [q|]; [destruct (q <? 0)%Z|]; simpl; auto. }
  apply (in_map (fun e => check_order_id row seen_ids ++ check_item row
                           ++ check_date row ++ check_quantity row ++ e)).
  unfold check_price, price_reasons.
  destruct (Py.float (price row)) as [p|]; [destruct (Py.flt p Py.fzero)|]; simpl; auto.
Qed.

End OneRow.

Lemma reason_lists_checked :
  forallb (fun l => splits_back l && contains_is_member l && all_reason_texts l)
          reason_lists = true.
Proof. vm_compute. reflexivity. Qed.

Lemma list_eqb_eq (l l' : list string) : list_eqb l l' = true -> l = l'.
Proof.
  revert l'. induction l as [|x r IH]; intros [|x' r']; simpl; try discriminate; trivial.
  intros H. apply andb_true_iff in H as [Hx Hr].
  apply String.eqb_eq in Hx. subst. f_equal. auto.
Qed.

Lemma reasons_join (row : Row) (seen_ids : id_set) :
  fst (row_errors row seen_ids) <> [] ->
  reasons (Text.join "; " (fst (row_errors row seen_ids))) = fst (row_errors row seen_ids).
Proof.
  intros Hne. pose proof (row_errors_listed row seen_ids) as Hin.
  pose proof reason_lists_checked as Hall.
  rewrite forallb_forall in Hall. specialize (Hall _ Hin).
  apply andb_true_iff in Hall as [Hall _].
  apply andb_true_iff in Hall as [Hs _]. unfold splits_back in Hs.
  destruct (fst (row_errors row seen_ids)) as [|e l] eqn:E; [congruence|].
  now apply list_eqb_eq.
Qed.

Lemma contains_join (row : Row) (seen_ids : id_set) (r : string) :
  In r reason_texts ->
  Text.contains (Text.join "; " (fst (row_errors row seen_ids))) r
  = mem_string r (fst (row_errors row seen_ids)).
Proof.
  intros Hr. pose proof (row_errors_listed row seen_ids) as Hin.
  pose proof reason_lists_checked as Hall.
  rewrite forallb_forall in Hall. specialize (Hall _ Hin).
  apply andb_true_iff in Hall as [Hall _].
  apply andb_true_iff in Hall as [_ Hc]. unfold contains_is_member in Hc.
  rewrite forallb_forall in Hc. specialize (Hc _ Hr).
  now apply Bool.eqb_prop in Hc.
Qed.

(** The reasons read back from the message of a row are those in [errors]. *)
Lemma row_errors_texts (row : Row) (seen_ids : id_set) (r : string) :
  In r (fst (row_errors row seen_ids)) -> In r reason_texts.
Proof.
  intros Hr. pose proof (row_errors_listed row seen_ids) as Hin.
  pose proof reason_lists_checked as Hall.
  rewrite forallb_forall in Hall. specialize (Hall _ Hin).
  apply andb_true_iff in Hall as [_ Ht]. unfold all_reason_texts in Ht.
  rewrite forallb_forall in Ht. specialize (Ht _ Hr).
  unfold mem_string in Ht. apply existsb_exists in Ht as (t & Ht & Heq).
  apply String.eqb_eq in Heq. now subst.
Qed.

Lemma mem_string_In (x : string) (l : list string) : mem_string x l = true <-> In x l.
Proof.
  unfold mem_string. rewrite existsb_exists. split.
  - intros (y & Hy & Heq). apply String.eqb_eq in Heq. now subst.
  - intros H. exists x. split; trivial. apply String.eqb_refl.
Qed.

Lemma reasons_validate_row (row : Row) (seen_ids : id_set) (r : string) :
  In r reason_texts ->
  In r (reasons (snd (fst (validate_row row seen_ids))))
  <-> In r (fst (row_errors row seen_ids)).
Proof.
  intros Hr. unfold validate_row.
  pose proof (reasons_join row seen_ids) as Hj.
  destruct (row_errors row seen_ids) as [errors seen'] eqn:E. cbn [fst snd] in *.
  destruct errors as [|e l]; cbn [fst snd].
  - split; [|intros []].
    change (reasons "No errors") with ["No errors"].
    intros [H|[]]. subst r. exfalso.
    unfold reason_texts in Hr. simpl in Hr.
    repeat (destruct Hr as [Hr|Hr]; [discriminate Hr|]). exact Hr.
  - rewrite Hj by discriminate. tauto.
Qed.

Lemma validate_row_seen (row : Row) (seen_ids : id_set) :
  snd (validate_row row seen_ids)
  = if isna (order_id row) then seen_ids else set_add (order_id row) seen_ids.
Proof.
  rewrite <- row_errors_seen. unfold validate_row.
  destruct (row_errors row seen_ids) as [[|e l] s]; reflexivity.
Qed.

(** ** The table loop *)

Section TableLoop.

Lemma entries_from_cons (i : nat) (s : id_set) (row : Row) (df : list Row) :
  entries_from i s (row :: df) = entry i row s :: entries_from (S i) (step_seen s row) df.
Proof.
  unfold entry, step_seen. simpl.
  destruct (validate_row row s) as [[st msg] s']. reflexivity.
Qed.

Lemma loop_columns (df : list Row) :
  forall (i : nat) (s : id_set) (sts msgs : list string),
    fold_left loop_step df (s, sts, msgs)
    = (fold_left step_seen df s,
       sts ++ map status (entries_from i s df),
       msgs ++ map error_message (entries_from i s df)).
Proof.
  induction df as [|row df IH]; intros i s sts msgs.
  - simpl. now rewrite !app_nil_r.
  - rewrite entries_from_cons. cbn [fold_left map].
    replace (loop_step (s, sts, msgs) row)
      with (step_seen s row, sts ++ [status (entry i row s)],
            msgs ++ [error_message (entry i row s)]).
    + rewrite (IH (S i)). now rewrite <- !app_assoc.
    + unfold loop_step, step_seen, entry. simpl.
      destruct (validate_row row s) as [[st msg] s']. reflexivity.
Qed.

Lemma entries_data (df : list Row) :
  forall i s, map data (entries_from i s df) = df.
Proof.
  induction df as [|row df IH]; intros i s; [reflexivity|].
  rewrite entries_from_cons. simpl. now rewrite IH.
Qed.

Lemma entries_index (df : list Row) :
  forall i s, map index (entries_from i s df) = seq i (List.length df).
Proof.
  induction df as [|row df IH]; intros i s; [reflexivity|].
  rewrite entries_from_cons. simpl. now rewrite IH.
Qed.

Lemma entries_length (df : list Row) :
  forall i s, List.length (entries_from i s df) = List.length df.
Proof.
  intros i s. rewrite <- (entries_data df i s) at 2. now rewrite length_map.
Qed.

Lemma assign_columns (es : list Entry) :
  map (fun '(i, row, (st, msg)) =>
         {| index := i; data := row; status := st; error_message := msg |})
      (combine (combine (map index es) (map data es))
               (combine (map status es) (map error_message es)))
  = es.
Proof.
  induction es as [|[i row st msg] es IH]; [reflexivity|].
  simpl. now rewrite IH.
Qed.

(** The frame after the two column assignments, row by row. *)
Lemma validated_entries (df : list Row) : validated df = entries_from 0 [] df.
Proof.
  unfold validated, validation_loop. rewrite (loop_columns df 0).
  cbn [app]. unfold assign.
  pose proof (assign_columns (entries_from 0 [] df)) as H.
  rewrite entries_index, entries_data in H. exact H.
Qed.

Lemma validated_length (df : list Row) : List.length (validated df) = List.length df.
Proof. rewrite validated_entries. apply entries_length. Qed.

Lemma seen_after_fold (df : list Row) : seen_after df = fold_left step_seen df [].
Proof.
  unfold seen_after, validation_loop. now rewrite (loop_columns df 0).
Qed.

Lemma entries_nth (df : list Row) :
  forall i s k row,
    nth_error df k = Some row ->
    nth_error (entries_from i s df) k
    = Some (entry (i + k) row (fold_left step_seen (firstn k df) s)).
Proof.
  induction df as [|r df IH]; intros i s k row Hk.
  - destruct k; discriminate.
  - rewrite entries_from_cons. destruct k as [|k].
    + simpl in *. inversion Hk. now rewrite Nat.add_0_r.
    + simpl in Hk. cbn [nth_error firstn fold_left].
      rewrite (IH (S i) _ k row Hk). now rewrite Nat.add_succ_r.
Qed.

(** The entry at position [i]: the row at position [i], validated with
    the identifiers of the rows before it. *)
Lemma validated_nth (df : list Row) (i : nat) (row : Row) :
  nth_error df i = Some row ->
  nth_error (validated df) i
  = Some {| index := i; data := row;
            status := fst (fst (validate_row row (seen_after (firstn i df))));
            error_message := snd (fst (validate_row row (seen_after (firstn i df)))) |}.
Proof.
  intros Hi. rewrite validated_entries, seen_after_fold.
  now rewrite (entries_nth df 0 [] i row Hi).
Qed.

(** An identifier is in [seen_ids] after some rows when it was there
    before or equals the identifier of one of the rows. *)
Lemma seen_fold_mem (x : value) (df : list Row) :
  forall s,
    set_mem x (fold_left step_seen df s)
    = set_mem x s || existsb (fun r => Py.eq (order_id r) x) df.
Proof.
  induction df as [|r df IH]; intros s.
  - simpl. now rewrite orb_false_r.
  - cbn [fold_left existsb]. rewrite IH. unfold step_seen at 1.
    rewrite validate_row_seen. destruct (isna (order_id r)) eqn:Hna.
    + now rewrite (py_eq_absent_l _ x Hna).
    + rewrite set_mem_add.
      destruct (Py.eq (order_id r) x), (set_mem x s); reflexivity.
Qed.

Lemma seen_after_mem (x : value) (df : list Row) :
  set_mem x (seen_after df) = existsb (fun r => Py.eq (order_id r) x) df.
Proof. rewrite seen_after_fold, seen_fold_mem. reflexivity. Qed.

End TableLoop.

(** ** Which check a reason comes from *)

(** A membership [H] of a given reason text in the reasons of a check that
    never gives it. *)
Ltac wrong_check H :=
  exfalso;
  unfold check_order_id, check_item, check_date, check_quantity, check_price in H;
  repeat match type of H with
         | context [if ?b then _ else _] => destruct b
         | context [match ?x with _ => _ end] => destruct x
         end;
  simpl in H; intuition discriminate.

Ltac split_errors H :=
  rewrite row_errors_checks in H; rewrite !in_app_iff in H;
  destruct H as [H|[H|[H|[H|H]]]].

Section ReasonOwner.

Variable row : Row.
Variable seen_ids : id_set.

Lemma errors_order_id (r : string) :
  r = "Missing order_id" \/ r = "Duplicate order_id" ->
  In r (fst (row_errors row seen_ids)) <-> In r (check_order_id row seen_ids).
Proof.
  intros Hr. split.
  - intros H. split_errors H; trivial; destruct Hr; subst r; wrong_check H.
  - intros H. rewrite row_errors_checks, !in_app_iff. tauto.
Qed.

Lemma errors_item :
  In "Missing item" (fst (row_errors row seen_ids)) <-> In "Missing item" (check_item row).
Proof.
  split.
  - intros H. split_errors H; trivial; wrong_check H.
  - intros H. rewrite row_errors_checks, !in_app_iff. tauto.
Qed.

Lemma errors_date :
  In "Invalid date (dd/mm/yyyy or mm-dd-yyyy)" (fst (row_errors row seen_ids))
  <-> In "Invalid date (dd/mm/yyyy or mm-dd-yyyy)" (check_date row).
Proof.
  split.
  - intros H. split_errors H; trivial; wrong_check H.
  - intros H. rewrite row_errors_checks, !in_app_iff. tauto.
Qed.

Lemma errors_quantity (r : string) :
  r = "Negative quantity" \/ r = "Invalid quantity" ->
  In r (fst (row_errors row seen_ids)) <-> In r (check_quantity row).
Proof.
  intros Hr. split.
  - intros H. split_errors H; trivial; destruct Hr; subst r; wrong_check H.
  - intros H. rewrite row_errors_checks, !in_app_iff. tauto.
Qed.

Lemma errors_price (r : string) :
  r = "Negative price" \/ r = "Invalid price" ->
  In r (fst (row_errors row seen_ids)) <-> In r (check_price row).
Proof.
  intros Hr. split.
  - intros H. split_errors H; trivial; destruct Hr; subst r; wrong_check H.
  - intros H. rewrite row_errors_checks, !in_app_iff. tauto.
Qed.

(** The same for the reasons read back from the verdict. *)
Lemma row_reasons_errors (r : string) :
  In r reason_texts ->
  In r (row_reasons row seen_ids) <-> In r (fst (row_errors row seen_ids)).
Proof. apply reasons_validate_row. Qed.

End ReasonOwner.

Lemma reason_text_listed (r : string) : mem_string r reason_texts = true -> In r reason_texts.
Proof. apply mem_string_In. Qed.

#[local] Hint Extern 1 (In _ reason_texts) => (apply reason_text_listed; reflexivity) : core.

(** * The claims *)

(** C2: for every record, [validate_row] runs the five field checks in the
    order identifier, item, date, quantity, price and collects the reason of
    every check that fails, in that order; the status is "Invalid" exactly when
    the collected reasons are non-empty and "Valid" exactly when they are
    empty.  An invalid verdict carries the collected reasons, joined, as its
    message. *)
Theorem all_checks_in_order (row : Row) (seen_ids : id_set) :
  let errors := fst (row_errors row seen_ids) in
  let verdict := fst (validate_row row seen_ids) in
  errors = check_order_id row seen_ids ++ check_item row ++ check_date row
             ++ check_quantity row ++ check_price row
  /\ (fst verdict = "Invalid" <-> errors <> [])
  /\ (fst verdict = "Valid" <-> errors = [])
  /\ (errors <> [] -> snd verdict = Text.join "; " errors /\ reasons (snd verdict) = errors).
Proof.
  cbv zeta. split; [apply row_errors_checks|].
  pose proof (reasons_join row seen_ids) as Hj.
  unfold validate_row. destruct (row_errors row seen_ids) as [[|e l] s]; cbn [fst snd] in *.
  - repeat split; try discriminate; try congruence.
  - repeat split; try discriminate; try congruence; auto.
Qed.

(** C4, as amended: for ASCII cells, the reason is "Invalid quantity"
    ("Invalid price") exactly when the conversion [int] ([float]) of the cell
    fails, and "Negative quantity" ("Negative price") exactly when the
    conversion succeeds with a value below zero, so a cell that does not
    convert is never reported negative.  For text the conversion is the parse
    of a literal; a float quantity is cut to its integer part and not refused.
    The quantity "-5" gives "Negative quantity" and the quantity "abc" gives
    "Invalid quantity"; the price "-1.5" gives "Negative price" and the price
    "abc" gives "Invalid price". *)
Theorem invalid_or_negative (row : Row) (seen_ids : id_set) :
  ascii_cell (quantity row) = true ->
  ascii_cell (price row) = true ->
  let rs := row_reasons row seen_ids in
  (In "Invalid quantity" rs <-> Py.int (quantity row) = None)
  /\ (In "Negative quantity" rs <-> exists q, Py.int (quantity row) = Some q /\ (q < 0)%Z)
  /\ (In "Invalid price" rs <-> Py.float (price row) = None)
  /\ (In "Negative price" rs
      <-> exists p, Py.float (price row) = Some p /\ Py.flt p Py.fzero = true)
  /\ ~ (In "Invalid quantity" rs /\ In "Negative quantity" rs)
  /\ ~ (In "Invalid price" rs /\ In "Negative price" rs)
  /\ (quantity row = VStr "-5" -> In "Negative quantity" rs)
  /\ (quantity row = VStr "abc" -> In "Invalid quantity" rs)
  /\ (price row = VStr "-1.5" -> In "Negative price" rs)
  /\ (price row = VStr "abc" -> In "Invalid price" rs).
Proof.
  intros _ _. cbv zeta.
  assert (Hiq : In "Invalid quantity" (row_reasons row seen_ids)
                <-> Py.int (quantity row) = None).
  { rewrite row_reasons_errors, errors_quantity by auto.
    unfold check_quantity.
    destruct (Py.int (quantity row)) as [q|]; [destruct (q <? 0)%Z|]; simpl;
      intuition discriminate. }
  assert (Hnq : In "Negative quantity" (row_reasons row seen_ids)
                <-> exists q, Py.int (quantity row) = Some q /\ (q < 0)%Z).
  { rewrite row_reasons_errors, errors_quantity by auto.
    unfold check_quantity.
    destruct (Py.int (quantity row)) as [q|]; [destruct (q <? 0)%Z eqn:Hq|]; simpl.
    - apply Z.ltb_lt in Hq. split; eauto.
    - apply Z.ltb_ge in Hq. split; [tauto|].
      intros (q' & Heq & Hlt). inversion Heq. lia.
    - split; [intuition discriminate|]. intros (q' & Heq & _). discriminate. }
  assert (Hip : In "Invalid price" (row_reasons row seen_ids)
                <-> Py.float (price row) = None).
  { rewrite row_reasons_errors, errors_price by auto.
    unfold check_price.
    destruct (Py.float (price row)) as [p|]; [destruct (Py.flt p Py.fzero)|]; simpl;
      intuition discriminate. }
  assert (Hnp : In "Negative price" (row_reasons row seen_ids)
                <-> exists p, Py.float (price row) = Some p /\ Py.flt p Py.fzero = true).
  { rewrite row_reasons_errors, errors_price by auto.
    unfold check_price.
    destruct (Py.float (price row)) as [p|]; [destruct (Py.flt p Py.fzero) eqn:Hp|]; simpl.
    - split; eauto.
    - split; [tauto|]. intros (p' & Heq & Hlt). inversion Heq. congruence.
    - split; [intuition discriminate|]. intros (p' & Heq & _). discriminate. }
  repeat split; try apply Hiq; try apply Hnq; try apply Hip; try apply Hnp.
  - intros [H1 H2]. apply Hiq in H1. apply Hnq in H2 as (q & Hq & _). congruence.
  - intros [H1 H2]. apply Hip in H1. apply Hnp in H2 as (p & Hp & _). congruence.
  - intros Hq. apply Hnq. rewrite Hq. exists (-5)%Z. split; [reflexivity | lia].
  - intros Hq. apply Hiq. rewrite Hq. reflexivity.
  - intros Hp. apply Hnp. rewrite Hp.
    exists (S754_finite true 6755399441055744 (-52)). split; vm_compute; reflexivity.
  - intros Hp. apply Hip. rewrite Hp. vm_compute. reflexivity.
Qed.

(** The quantity "-5" and the price "-1.5" on a row otherwise in order. *)
Lemma invalid_or_negative_witness :
  let row := with_price (VStr "-1.5") (with_quantity (VStr "-5") good_row) in
  ascii_cell (quantity row) = true /\ ascii_cell (price row) = true
  /\ In "Negative quantity" (row_reasons row [])
  /\ In "Negative price" (row_reasons row []).
Proof.
  cbv zeta. split; [reflexivity | split; [reflexivity|]].
  pose proof (invalid_or_negative
                (with_price (VStr "-1.5") (with_quantity (VStr "-5") good_row)) []
                (Logic.eq_refl _) (Logic.eq_refl _)) as H.
  cbv zeta in H. destruct H as (_ & _ & _ & _ & _ & _ & H7 & _ & H9 & _).
  split; [apply H7 | apply H9]; reflexivity.
Defined.

(** C4, as stated, fails on a float cell: the quantity -0.5, as a numeric
    column gives it, is no integer literal, yet it is cut to 0 and gets neither
    "Invalid quantity" nor "Negative quantity"; the same quantity as text does
    get "Invalid quantity". *)
Lemma fraction_is_no_integer_literal :
  let row := with_quantity (VFloat (S754_finite true 1 (-1))) good_row in
  integer_literal (quantity row) = None
  /\ Py.int (quantity row) = Some 0%Z
  /\ ~ In "Invalid quantity" (row_reasons row [])
  /\ ~ In "Negative quantity" (row_reasons row [])
  /\ In "Invalid quantity" (row_reasons (with_quantity (VStr "-0.5") good_row) []).
Proof.
  cbv zeta. split; [reflexivity | split; [reflexivity|]].
  rewrite !row_reasons_errors, !errors_quantity by auto.
  unfold check_quantity. repeat split.
  - vm_compute. tauto.
  - vm_compute. tauto.
  - vm_compute. now left.
Qed.

(** C7: the table loop gives one status and one message per record, so the
    validated table is as long as the input, and the entry at position [i] is
    the verdict of the record at position [i], reached with the identifiers of
    the records before it. *)
Theorem one_verdict_per_record (df : list Row) :
  List.length (snd (fst (validation_loop df))) = List.length df
  /\ List.length (snd (validation_loop df)) = List.length df
  /\ List.length (validated df) = List.length df
  /\ forall (i : nat) (row : Row),
      nth_error df i = Some row ->
      nth_error (validated df) i
      = Some {| index := i; data := row;
                status := fst (fst (validate_row row (seen_after (firstn i df))));
                error_message := snd (fst (validate_row row (seen_after (firstn i df)))) |}.
Proof.
  unfold validation_loop. rewrite (loop_columns df 0). cbn [fst snd app].
  rewrite !length_map, validated_entries, !entries_length.
  repeat split. intros i row Hi. rewrite <- validated_entries.
  now apply validated_nth.
Qed.

(** ** Identifiers across rows *)

Lemma reasons_at_row (df : list Row) (i : nat) (row : Row) :
  nth_error df i = Some row ->
  reasons_at df i = row_reasons row (seen_after (firstn i df)).
Proof.
  intros Hi. unfold reasons_at. now rewrite (validated_nth df i row Hi).
Qed.

Lemma in_firstn_nth {A : Type} (x : A) (l : list A) :
  forall i, In x (firstn i l) <-> exists j, j < i /\ nth_error l j = Some x.
Proof.
  induction l as [|a l IH]; intros i.
  - rewrite firstn_nil. split; [intros [] | intros (j & _ & Hj)].
    destruct j; discriminate.
  - destruct i as [|i].
    + simpl. split; [intros [] | intros (j & Hj & _); lia].
    + cbn [firstn In]. rewrite IH. split.
      * intros [->|(j & Hj & Hn)]; [exists 0 | exists (S j)]; split; trivial; lia.
      * intros ([|j] & Hj & Hn); simpl in Hn.
        -- left. congruence.
        -- right. exists j. split; trivial. lia.
Qed.

(** The duplicate reason of one row, in terms of the rows before it. *)
Lemma duplicate_reason (df : list Row) (i : nat) (row : Row) :
  nth_error df i = Some row ->
  In "Duplicate order_id" (reasons_at df i)
  <-> exists j r, j < i /\ nth_error df j = Some r
                  /\ Py.eq (order_id r) (order_id row) = true.
Proof.
  intros Hi. rewrite (reasons_at_row df i row Hi).
  rewrite row_reasons_errors, errors_order_id by auto.
  unfold check_order_id. rewrite seen_after_mem.
  destruct (isna (order_id row)) eqn:Hna.
  - split.
    + simpl. intuition discriminate.
    + intros (j & r & _ & _ & He). rewrite py_eq_absent_r in He; [discriminate | trivial].
  - destruct (existsb _ _) eqn:Hex.
    + split; [intros _ | simpl; tauto].
      apply existsb_exists in Hex as (r & Hr & He).
      apply in_firstn_nth in Hr as (j & Hj & Hn). eauto.
    + split; [intros [] |].
      intros (j & r & Hj & Hn & He). exfalso.
      assert (Hin : In r (firstn i df)) by (apply in_firstn_nth; eauto).
      assert (existsb (fun r0 => Py.eq (order_id r0) (order_id row)) (firstn i df) = true)
        by (apply existsb_exists; eauto).
      congruence.
Qed.

(** The missing reason of one row. *)
Lemma missing_reason (df : list Row) (i : nat) (row : Row) :
  nth_error df i = Some row ->
  In "Missing order_id" (reasons_at df i) <-> isna (order_id row) = true.
Proof.
  intros Hi. rewrite (reasons_at_row df i row Hi).
  rewrite row_reasons_errors, errors_order_id by auto.
  unfold check_order_id.
  destruct (isna (order_id row)); [|destruct (set_mem _ _)]; simpl; intuition discriminate.
Qed.

(** C1: in one run over a table, the reasons of a row include "Duplicate
    order_id" if and only if the identifier of the row equals the identifier of
    an earlier row, so the first occurrence of an identifier is never flagged.
    For three rows with the identifiers A, A, B, the second row carries the
    reason and the first and the third do not. *)
Theorem duplicate_iff_seen_earlier :
  (forall (df : list Row) (i : nat) (row : Row),
      nth_error df i = Some row ->
      In "Duplicate order_id" (reasons_at df i)
      <-> exists j r, j < i /\ nth_error df j = Some r
                      /\ Py.eq (order_id r) (order_id row) = true)
  /\ (forall (df : list Row) (i : nat) (row : Row),
      nth_error df i = Some row ->
      (forall j r, j < i -> nth_error df j = Some r ->
                   Py.eq (order_id r) (order_id row) = false) ->
      ~ In "Duplicate order_id" (reasons_at df i))
  /\ (forall (a b : value) (r1 r2 r3 : Row),
      isna a = false -> Py.eq a b = false ->
      order_id r1 = a -> order_id r2 = a -> order_id r3 = b ->
      ~ In "Duplicate order_id" (reasons_at [r1; r2; r3] 0)
      /\ In "Duplicate order_id" (reasons_at [r1; r2; r3] 1)
      /\ ~ In "Duplicate order_id" (reasons_at [r1; r2; r3] 2)).
Proof.
  split; [exact duplicate_reason | split].
  - intros df i row Hi Hfirst Hdup.
    apply (duplicate_reason df i row Hi) in Hdup as (j & r & Hj & Hn & He).
    rewrite (Hfirst j r Hj Hn) in He. discriminate.
  - intros a b r1 r2 r3 Ha Hab H1 H2 H3. repeat split.
    + rewrite (duplicate_reason [r1; r2; r3] 0 r1) by reflexivity.
      intros (j & r & Hj & _). lia.
    + rewrite (duplicate_reason [r1; r2; r3] 1 r2) by reflexivity.
      exists 0, r1. repeat split; [lia|]. rewrite H1, H2. now apply py_eq_refl.
    + rewrite (duplicate_reason [r1; r2; r3] 2 r3) by reflexivity.
      intros (j & r & Hj & Hn & He).
      destruct j as [|[|j]]; [| |lia]; simpl in Hn; inversion Hn; subst r;
        rewrite ?H1, ?H2, H3 in He; congruence.
Qed.

(** The identifiers [VStr "A"], [VStr "A"], [VStr "B"] on rows that are
    otherwise in order: only the second row is flagged. *)
Lemma duplicate_iff_seen_earlier_witness :
  let df := [with_id (VStr "A") good_row; with_id (VStr "A") good_row;
             with_id (VStr "B") good_row] in
  ~ In "Duplicate order_id" (reasons_at df 0)
  /\ In "Duplicate order_id" (reasons_at df 1)
  /\ ~ In "Duplicate order_id" (reasons_at df 2).
Proof.
  exact (proj2 (proj2 duplicate_iff_seen_earlier) (VStr "A") (VStr "B")
               (with_id (VStr "A") good_row) (with_id (VStr "A") good_row)
               (with_id (VStr "B") good_row)
               (Logic.eq_refl _) (Logic.eq_refl _)
               (Logic.eq_refl _) (Logic.eq_refl _) (Logic.eq_refl _)).
Defined.

(** X20. A record whose identifier is absent has the reason "Missing
    order_id" and never "Duplicate order_id", whatever precedes it in the
    table, other absent identifiers included. *)
Theorem absent_identifier_is_missing (df : list Row) (i : nat) (row : Row) :
  nth_error df i = Some row ->
  isna (order_id row) = true ->
  In "Missing order_id" (reasons_at df i)
  /\ ~ In "Duplicate order_id" (reasons_at df i).
Proof.
  intros Hi Hna. split.
  - now apply (missing_reason df i row Hi).
  - rewrite (duplicate_reason df i row Hi).
    intros (j & r & _ & _ & He). rewrite py_eq_absent_r in He; [discriminate | trivial].
Qed.

(** Two rows of missing cells: the second is missing an identifier and is
    no duplicate of the first. *)
Lemma absent_identifier_is_missing_witness :
  nth_error [missing_row; missing_row] 1 = Some missing_row
  /\ isna (order_id missing_row) = true
  /\ In "Missing order_id" (reasons_at [missing_row; missing_row] 1)
  /\ ~ In "Duplicate order_id" (reasons_at [missing_row; missing_row] 1).
Proof.
  split; [reflexivity | split; [reflexivity|]].
  exact (absent_identifier_is_missing [missing_row; missing_row] 1 missing_row
           (Logic.eq_refl _) (Logic.eq_refl _)).
Defined.

(** C5: the program at two rows whose identifier is blank.  The identifier
    is tested with [pd.isna] only, where the item next to it is also tested for
    being blank once stripped; so text of one space is stored and compared like
    any other identifier, and the second of two such rows is not "Missing
    order_id", as the claim has it, but "Duplicate order_id". *)
Lemma blank_identifier_is_duplicate :
  nth_error [blank_id_row; blank_id_row] 1 = Some blank_id_row
  /\ blank_or_absent (order_id blank_id_row)
  /\ ~ In "Missing order_id" (reasons_at [blank_id_row; blank_id_row] 1)
  /\ In "Duplicate order_id" (reasons_at [blank_id_row; blank_id_row] 1).
Proof.
  split; [reflexivity | split; [| split]].
  - right. exists " ". split; reflexivity.
  - rewrite (missing_reason _ 1 blank_id_row) by reflexivity. discriminate.
  - rewrite (duplicate_reason _ 1 blank_id_row) by reflexivity.
    exists 0, blank_id_row. repeat split. lia.
Qed.

(** ** The validation rate *)

(** C6, as amended: the rate is the quotient of the number of valid rows by
    the number of rows, times 100 (a percentage), when the table has rows, and
    the integer 0 when it has none; the division is never reached with a zero
    divisor. *)
Theorem rate_is_percentage (df : list Row) :
  let s := stats (validated df) in
  total s = Z.of_nat (List.length df)
  /\ valid s = count_status "Valid" (validated df)
  /\ rate s <> None
  /\ rate s
     = if (0 <? total s)%Z
       then Some (VFloat (times_100 (SFdiv Py.prec Py.emax (Py.float_of_Z (valid s))
                                           (Py.float_of_Z (total s)))))
       else Some (VInt 0).
Proof.
  cbv zeta. unfold stats. cbn [total valid rate].
  rewrite validated_length.
  assert (Hrate : validation_rate (count_status "Valid" (validated df))
                                  (Z.of_nat (List.length df))
                  = if (0 <? Z.of_nat (List.length df))%Z
                    then Some (VFloat (times_100
                           (SFdiv Py.prec Py.emax
                              (Py.float_of_Z (count_status "Valid" (validated df)))
                              (Py.float_of_Z (Z.of_nat (List.length df))))))
                    else Some (VInt 0)).
  { unfold validation_rate, true_divide.
    destruct (0 <? Z.of_nat (List.length df))%Z eqn:Hpos; trivial.
    apply Z.ltb_lt in Hpos.
    destruct (Z.of_nat (List.length df) =? 0)%Z eqn:Hz; [|reflexivity].
    apply Z.eqb_eq in Hz. lia. }
  repeat split; trivial.
  rewrite Hrate. destruct (0 <? _)%Z; discriminate.
Qed.

(** C6, as stated, fails: for a table of one valid row the rate is 100.0,
    not the quotient 1.0. *)
Lemma rate_is_not_the_quotient :
  let s := stats (validated [good_row]) in
  (0 < total s)%Z
  /\ rate s = Some (VFloat (Py.float_of_Z 100))
  /\ plain_quotient (valid s) (total s) = Some (VFloat (Py.float_of_Z 1))
  /\ rate s <> plain_quotient (valid s) (total s).
Proof.
  cbv zeta. repeat split; vm_compute; congruence.
Qed.

(** ** The error filter *)

(** C10: with nothing selected, the filter returns the invalid rows as they
    are, all of them and in their order. *)
Theorem empty_selection_keeps_all (invalid : list Entry) :
  filtered_df [] invalid = invalid.
Proof. reflexivity. Qed.

Lemma entries_shape (df : list Row) :
  forall i s e,
    In e (entries_from i s df) ->
    exists row seen_ids,
      status e = fst (fst (validate_row row seen_ids))
      /\ error_message e = snd (fst (validate_row row seen_ids)).
Proof.
  induction df as [|r df IH]; intros i s e He; [destruct He|].
  rewrite entries_from_cons in He. destruct He as [<-|He].
  - exists r, s. split; reflexivity.
  - eapply IH. exact He.
Qed.

(** The message of an invalid row is its non-empty list of reasons, joined. *)
Lemma invalid_message (df : list Row) (e : Entry) :
  In e (invalid_df (validated df)) ->
  exists row seen_ids,
    fst (row_errors row seen_ids) <> []
    /\ error_message e = Text.join "; " (fst (row_errors row seen_ids)).
Proof.
  unfold invalid_df. rewrite filter_In, validated_entries. intros [He Hst].
  apply entries_shape in He as (row & seen_ids & Hs & Hm).
  exists row, seen_ids. rewrite Hs in Hst. rewrite Hm. clear Hs Hm.
  unfold validate_row in *.
  destruct (row_errors row seen_ids) as [[|r l] s']; cbn [fst snd] in *.
  - discriminate.
  - split; [discriminate | reflexivity].
Qed.

Lemma existsb_ext_in {A : Type} (f g : A -> bool) (l : list A) :
  (forall x, In x l -> f x = g x) -> existsb f l = existsb g l.
Proof.
  induction l as [|a l IH]; intros H; [reflexivity|].
  simpl. rewrite (H a) by (now left). rewrite IH; trivial.
  intros x Hx. apply H. now right.
Qed.

(** On an invalid row, a reason text occurs in the message exactly when it
    is one of the reasons of the row. *)
Lemma contains_reason (df : list Row) (e : Entry) (r : string) :
  In e (invalid_df (validated df)) ->
  In r reason_texts ->
  Text.contains (error_message e) r = mem_string r (reasons (error_message e)).
Proof.
  intros He Hr. destruct (invalid_message df e He) as (row & seen_ids & Hne & ->).
  rewrite reasons_join by exact Hne. now apply contains_join.
Qed.

(** C8: for a non-empty selection of reason texts, the filter returns, in
    their order, exactly the invalid rows of which some reason is selected (one
    selected reason is enough, whatever the other reasons of the row). *)
Theorem filter_is_union (df : list Row) (selected : list string) :
  selected <> [] ->
  Forall (fun r => In r reason_texts) selected ->
  let invalid := invalid_df (validated df) in
  filtered_df selected invalid
  = filter (fun e => existsb (fun r => mem_string r (reasons (error_message e))) selected)
           invalid
  /\ forall e, In e (filtered_df selected invalid)
               <-> In e invalid
                   /\ exists r, In r selected /\ In r (reasons (error_message e)).
Proof.
  intros Hne Hsel. cbv zeta.
  assert (Heq : filtered_df selected (invalid_df (validated df))
                = filter (fun e => existsb (fun r => mem_string r (reasons (error_message e)))
                                           selected)
                         (invalid_df (validated df))).
  { destruct selected as [|r0 sel]; [congruence|]. unfold filtered_df.
    apply filter_ext_in. intros e He. apply existsb_ext_in. intros r Hr.
    apply (contains_reason df e r He).
    rewrite Forall_forall in Hsel. now apply Hsel. }
  split; [exact Heq|].
  intros e. rewrite Heq, filter_In, existsb_exists.
  split; intros [He (r & Hr & Hm)]; (split; [exact He|]); exists r; (split; [exact Hr|]);
    now apply mem_string_In.
Qed.

(** A table of a valid row, a row of missing cells and a row whose item is
    blank: selecting "Missing item" returns the second and the third row. *)
Lemma filter_is_union_witness :
  let df := [good_row; missing_row; with_item (VStr "  ") good_row] in
  let invalid := invalid_df (validated df) in
  map index (filtered_df ["Missing item"] invalid) = [1; 2]
  /\ filtered_df ["Missing item"] invalid
     = filter (fun e => existsb (fun r => mem_string r (reasons (error_message e)))
                                ["Missing item"])
              invalid
  /\ forall e, In e (filtered_df ["Missing item"] invalid)
               <-> In e invalid
                   /\ exists r, In r ["Missing item"] /\ In r (reasons (error_message e)).
Proof.
  split; [reflexivity|].
  apply (filter_is_union [good_row; missing_row; with_item (VStr "  ") good_row]
                         ["Missing item"]).
  - discriminate.
  - constructor; [|constructor]. simpl. tauto.
Defined.

(** ** The error tally *)

Lemma tally_keys (x k : string) (counts : list (string * nat)) :
  In k (keys (tally x counts)) <-> k = x \/ In k (keys counts).
Proof.
  induction counts as [|[k0 n] counts IH]; simpl.
  - intuition.
  - destruct (String.eqb k0 x) eqn:E.
    + apply String.eqb_eq in E. subst. simpl. intuition.
    + simpl. rewrite IH. intuition.
Qed.

Lemma Counter_keys (items : list string) (k : string) :
  In k (keys (Counter items)) <-> In k items.
Proof.
  unfold Counter.
  assert (H : forall counts,
             In k (keys (fold_left (fun c x => tally x c) items counts))
             <-> In k items \/ In k (keys counts)).
  { induction items as [|x items IH]; intros counts; simpl.
    - intuition.
    - rewrite IH, tally_keys. intuition. }
  rewrite H. simpl. intuition.
Qed.

(** C9: the invalid rows are exactly the rows returned by filtering on one
    key of the error tally, for some key: filtering again by every reason that
    was counted loses no invalid row and brings in no other row. *)
Theorem refilter_round_trip (df : list Row) :
  let invalid := invalid_df (validated df) in
  let counted := keys (error_counts (validated df)) in
  forall e, In e invalid <-> exists k, In k counted /\ In e (filtered_df [k] invalid).
Proof.
  cbv zeta. intros e. split.
  - intros He. destruct (invalid_message df e He) as (row & seen_ids & Hne & Hm).
    destruct (fst (row_errors row seen_ids)) as [|k l] eqn:E; [congruence|].
    assert (Hk : In k (fst (row_errors row seen_ids))) by (rewrite E; now left).
    assert (Hkr : In k (reasons (error_message e))).
    { rewrite Hm, <- E, reasons_join; trivial. congruence. }
    exists k. split.
    + unfold error_counts. rewrite Counter_keys. unfold error_list.
      apply in_flat_map. eauto.
    + unfold filtered_df. apply filter_In. split; trivial.
      cbn [existsb]. rewrite orb_false_r.
      rewrite (contains_reason df e k He (row_errors_texts _ _ _ Hk)).
      now apply mem_string_In.
  - intros (k & _ & He). unfold filtered_df in He. now apply filter_In in He.
Qed.

(** ** Dates *)

Module DateFacts.
Import Text Strptime DateText.

(** Character tests as arithmetic on character codes. *)
Lemma code_inj (a c : ascii) : code a = code c -> a = c.
Proof.
  unfold code. intros H.
  rewrite <- (ascii_nat_embedding a), <- (ascii_nat_embedding c). now rewrite H.
Qed.

Lemma is_char_true (a c : ascii) : is_char a c = true -> code c = code a.
Proof. unfold is_char. intros H. apply Ascii.eqb_eq in H. now subst. Qed.

Lemma is_char_false (a c : ascii) : is_char a c = false -> code c <> code a.
Proof.
  unfold is_char. intros H Hc. apply Ascii.eqb_neq in H. apply H.
  now apply code_inj.
Qed.

Lemma in_range_true (lo hi c : ascii) :
  in_range lo hi c = true -> code lo <= code c <= code hi.
Proof.
  unfold in_range. intros H. apply andb_true_iff in H as [H1 H2].
  apply Nat.leb_le in H1, H2. lia.
Qed.

Lemma in_range_false (lo hi c : ascii) :
  in_range lo hi c = false -> code c < code lo \/ code hi < code c.
Proof.
  unfold in_range. intros H. apply andb_false_iff in H as [H|H];
    apply Nat.leb_gt in H; lia.
Qed.

(** Replace the code of a character literal by its number. *)
Ltac code_literals :=
  repeat match goal with
         | H : context [code (Ascii ?b0 ?b1 ?b2 ?b3 ?b4 ?b5 ?b6 ?b7)] |- _ =>
             let n := eval vm_compute in (code (Ascii b0 b1 b2 b3 b4 b5 b6 b7)) in
             change (code (Ascii b0 b1 b2 b3 b4 b5 b6 b7)) with n in H
         | |- context [code (Ascii ?b0 ?b1 ?b2 ?b3 ?b4 ?b5 ?b6 ?b7)] =>
             let n := eval vm_compute in (code (Ascii b0 b1 b2 b3 b4 b5 b6 b7)) in
             change (code (Ascii b0 b1 b2 b3 b4 b5 b6 b7)) with n
         end.

(** Turn every character test in the context into a fact about codes. *)
Ltac char_facts :=
  unfold is_digit in *;
  repeat match goal with
         | H : is_char _ _ = true |- _ => apply is_char_true in H
         | H : is_char _ _ = false |- _ => apply is_char_false in H
         | H : in_range _ _ _ = true |- _ => apply in_range_true in H
         | H : in_range _ _ _ = false |- _ => apply in_range_false in H
         end;
  unfold digit_val in *; code_literals.

(** Case analysis on every character test of the goal. *)
Ltac split_tests :=
  repeat match goal with
         | |- context [is_char ?a ?c] =>
             lazymatch goal with
             | H : is_char a c = _ |- _ => rewrite H
             | _ => destruct (is_char a c) eqn:?
             end
         | |- context [in_range ?a ?b ?c] =>
             lazymatch goal with
             | H : in_range a b c = _ |- _ => rewrite H
             | _ => destruct (in_range a b c) eqn:?
             end
         end.

(** A text of two characters is a day when one of the two-character
    alternatives of [%d] matches it, and then denotes the same number. *)
Lemma day_text_two (c1 c2 : ascii) :
  day_text (String c1 (String c2 "")) =
  if (is_char "3" c1 && in_range "0" "1" c2) || (in_range "1" "2" c1 && is_digit c2)
     || (is_char "0" c1 && in_range "1" "9" c2) || (is_char " " c1 && in_range "1" "9" c2)
  then Some (10 * digit_or_zero c1 + digit_val c2)%Z else None.
Proof.
  unfold day_text, digit_or_zero, is_digit. 
  split_tests; cbn [andb orb]; try reflexivity; char_facts; try lia; f_equal; try lia.
Qed.

(** The same for the two-character alternatives of [%m]. *)
Lemma month_text_two (c1 c2 : ascii) :
  month_text (String c1 (String c2 "")) =
  if (is_char "1" c1 && in_range "0" "2" c2) || (is_char "0" c1 && in_range "1" "9" c2)
  then Some (10 * digit_or_zero c1 + digit_val c2)%Z else None.
Proof.
  unfold month_text, digit_or_zero, is_digit.
  split_tests; cbn [andb orb]; try reflexivity; char_facts; try lia; f_equal; try lia.
Qed.

(** What one alternative matches. *)
Lemma in_one (p : ascii -> bool) (s : string) (d : Z) (r : string) :
  In (d, r) (one p s) <-> exists c, s = String c r /\ p c = true /\ d = digit_val c.
Proof.
  unfold one. destruct s as [|c s'].
  - split; [intros [] | intros (c & H & _); discriminate].
  - destruct (p c) eqn:Hp; simpl.
    + split.
      * intros [H|[]]. inversion H. subst. eauto.
      * intros (c' & H & _ & ->). inversion H. subst. now left.
    + split; [intros [] | intros (c' & H & Hp' & _)]. inversion H. subst. congruence.
Qed.

Lemma in_two (p1 p2 : ascii -> bool) (s : string) (d : Z) (r : string) :
  In (d, r) (two p1 p2 s)
  <-> exists c1 c2, s = String c1 (String c2 r) /\ p1 c1 && p2 c2 = true
                    /\ d = (10 * digit_or_zero c1 + digit_val c2)%Z.
Proof.
  unfold two. destruct s as [|c1 [|c2 s']].
  - split; [intros [] | intros (c & c' & H & _); discriminate].
  - split; [intros [] | intros (c & c' & H & _); discriminate].
  - destruct (p1 c1 && p2 c2) eqn:Hp; simpl.
    + split.
      * intros [H|[]]. inversion H. subst. eauto.
      * intros (x & y & H & _ & ->). inversion H. subst. now left.
    + split; [intros [] | intros (x & y & H & Hp' & _)]. inversion H. subst. congruence.
Qed.

Lemma day_text_cases (a : string) (d : Z) :
  day_text a = Some d
  <-> (exists c, a = String c "" /\ in_range "1" "9" c = true /\ d = digit_val c)
      \/ (exists c1 c2, a = String c1 (String c2 "")
            /\ ((is_char "3" c1 && in_range "0" "1" c2) || (in_range "1" "2" c1 && is_digit c2)
                || (is_char "0" c1 && in_range "1" "9" c2)
                || (is_char " " c1 && in_range "1" "9" c2)) = true
            /\ d = (10 * digit_or_zero c1 + digit_val c2)%Z).
Proof.
  destruct a as [|c1 [|c2 [|c3 a]]].
  - split; [discriminate | intros [(c & H & _)|(c & c' & H & _)]; discriminate].
  - simpl. destruct (in_range "1" "9" c1) eqn:E.
    + split.
      * intros H. inversion H. left. eauto.
      * intros [(c & H & _ & ->)|(c & c' & H & _)]; [|discriminate]. now inversion H.
    + split; [discriminate|].
      intros [(c & H & E' & _)|(c & c' & H & _)]; [|discriminate]. inversion H. congruence.
  - rewrite day_text_two. destruct (_ || _) eqn:E.
    + split.
      * intros H. inversion H. right. eauto.
      * intros [(c & H & _)|(x & y & H & _ & ->)]; [discriminate|]. now inversion H.
    + split; [discriminate|].
      intros [(c & H & _)|(x & y & H & E' & _)]; [discriminate|]. inversion H. congruence.
  - split; [discriminate | intros [(c & H & _)|(c & c' & H & _)]; discriminate].
Qed.

(** The alternatives of [%d] at the head of [s] read exactly the day texts
    [s] starts with. *)
Lemma day_alts_spec (s : string) (d : Z) (r : string) :
  In (d, r) (day_alts s) <-> exists a, s = (a ++ r)%string /\ day_text a = Some d.
Proof.
  unfold day_alts. rewrite !in_app_iff, !in_two, in_one. split.
  - intros H. 
    assert (H' : (exists c, s = String c r /\ in_range "1" "9" c = true /\ d = digit_val c)
                 \/ (exists c1 c2, s = String c1 (String c2 r) /\
                       ((is_char "3" c1 && in_range "0" "1" c2) || (in_range "1" "2" c1 && is_digit c2)
                || (is_char "0" c1 && in_range "1" "9" c2)
                || (is_char " " c1 && in_range "1" "9" c2)) = true /\ d = (10 * digit_or_zero c1 + digit_val c2)%Z)).
    { destruct H as [H|[H|[H|[H|H]]]]; [right|right|right|left; exact H|right];
        destruct H as (c1 & c2 & Hs & Hp & Hd); exists c1, c2; (split; [exact Hs|]);
        (split; [|exact Hd]); rewrite Hp; rewrite ?orb_true_r; reflexivity. }
    destruct H' as [(c & -> & Hp & Hd)|(c1 & c2 & -> & Hp & Hd)].
    + exists (String c ""). split; [reflexivity|]. apply day_text_cases. left. eauto.
    + exists (String c1 (String c2 "")). split; [reflexivity|]. apply day_text_cases. right. eauto.
  - intros (a & -> & Ha). apply day_text_cases in Ha as [(c & -> & Hp & Hd)|(c1 & c2 & -> & Hp & Hd)].
    + right. right. right. left. exists c. auto.
    + simpl. rewrite !orb_true_iff in Hp. destruct Hp as [[[Hp|Hp]|Hp]|Hp].
      * left. eauto.
      * right. left. eauto.
      * right. right. left. eauto.
      * right. right. right. right. eauto.
Qed.

Lemma month_text_cases (a : string) (d : Z) :
  month_text a = Some d
  <-> (exists c, a = String c "" /\ in_range "1" "9" c = true /\ d = digit_val c)
      \/ (exists c1 c2, a = String c1 (String c2 "")
            /\ ((is_char "1" c1 && in_range "0" "2" c2)
                || (is_char "0" c1 && in_range "1" "9" c2)) = true
            /\ d = (10 * digit_or_zero c1 + digit_val c2)%Z).
Proof.
  destruct a as [|c1 [|c2 [|c3 a]]].
  - split; [discriminate | intros [(c & H & _)|(c & c' & H & _)]; discriminate].
  - simpl. destruct (in_range "1" "9" c1) eqn:E.
    + split.
      * intros H. inversion H. left. eauto.
      * intros [(c & H & _ & ->)|(c & c' & H & _)]; [|discriminate]. now inversion H.
    + split; [discriminate|].
      intros [(c & H & E' & _)|(c & c' & H & _)]; [|discriminate]. inversion H. congruence.
  - rewrite month_text_two. destruct (_ || _) eqn:E.
    + split.
      * intros H. inversion H. right. eauto.
      * intros [(c & H & _)|(x & y & H & _ & ->)]; [discriminate|]. now inversion H.
    + split; [discriminate|].
      intros [(c & H & _)|(x & y & H & E' & _)]; [discriminate|]. inversion H. congruence.
  - split; [discriminate | intros [(c & H & _)|(c & c' & H & _)]; discriminate].
Qed.

Lemma month_alts_spec (s : string) (d : Z) (r : string) :
  In (d, r) (month_alts s) <-> exists a, s = (a ++ r)%string /\ month_text a = Some d.
Proof.
  unfold month_alts. rewrite !in_app_iff, !in_two, in_one. split.
  - intros [H|[H|H]].
    + destruct H as (c1 & c2 & -> & Hp & Hd). exists (String c1 (String c2 "")).
      split; [reflexivity|]. apply month_text_cases. right. exists c1, c2.
      rewrite Hp. auto.
    + destruct H as (c1 & c2 & -> & Hp & Hd). exists (String c1 (String c2 "")).
      split; [reflexivity|]. apply month_text_cases. right. exists c1, c2.
      rewrite Hp, orb_true_r. auto.
    + destruct H as (c & -> & Hp & Hd). exists (String c "").
      split; [reflexivity|]. apply month_text_cases. left. eauto.
  - intros (a & -> & Ha).
    apply month_text_cases in Ha as [(c & -> & Hp & Hd)|(c1 & c2 & -> & Hp & Hd)].
    + right. right. exists c. auto.
    + simpl. rewrite !orb_true_iff in Hp. destruct Hp as [Hp|Hp].
      * left. eauto.
      * right. left. eauto.
Qed.

Lemma year_alts_spec (s : string) (y : Z) (r : string) :
  In (y, r) (year_alts s) <-> exists a, s = (a ++ r)%string /\ year_text a = Some y.
Proof.
  split.
  - destruct s as [|c1 [|c2 [|c3 [|c4 s']]]]; simpl; try tauto.
    destruct (is_digit c1 && is_digit c2 && is_digit c3 && is_digit c4) eqn:E; [|intros []].
    intros [H|[]]. inversion H. subst.
    exists (String c1 (String c2 (String c3 (String c4 "")))). simpl. now rewrite E.
  - intros (a & -> & Ha).
    destruct a as [|c1 [|c2 [|c3 [|c4 [|c5 a]]]]]; try discriminate. simpl in *.
    destruct (is_digit c1 && is_digit c2 && is_digit c3 && is_digit c4); [|discriminate].
    inversion Ha. now left.
Qed.

(** A text is cut at its first separator in one way only. *)
Lemma split_at_first (sep : ascii) (a a' t t' : string) :
  occurs sep a = false -> occurs sep a' = false ->
  (a ++ String sep t)%string = (a' ++ String sep t')%string ->
  a = a' /\ t = t'.
Proof.
  revert a'. induction a as [|c a IH]; intros [|c' a'] Ha Ha' H; simpl in *.
  - inversion H. auto.
  - inversion H. subst c'. rewrite Ascii.eqb_refl in Ha'. discriminate.
  - inversion H. subst c. rewrite Ascii.eqb_refl in Ha. discriminate.
  - inversion H. subst c'. apply orb_false_iff in Ha as [_ Ha], Ha' as [_ Ha'].
    destruct (IH a' Ha Ha' H2) as [-> ->]. auto.
Qed.

(** Field texts are made of digits and spaces: no separator occurs in them. *)
Ltac no_sep_case Hsep Hp :=
  apply Ascii.eqb_neq; intros <-; unfold is_digit in Hp;
  rewrite ?orb_true_iff, ?andb_true_iff in Hp;
  destruct Hsep; subst; intuition idtac; char_facts; lia.

Lemma day_text_no_sep (sep : ascii) (a : string) (d : Z) :
  sep = "/"%char \/ sep = "-"%char ->
  day_text a = Some d -> occurs sep a = false.
Proof.
  intros Hsep Ha.
  apply day_text_cases in Ha as [(c & -> & Hp & _)|(c1 & c2 & -> & Hp & _)]; simpl;
    rewrite ?orb_false_r, ?orb_false_iff; repeat split; no_sep_case Hsep Hp.
Qed.

Lemma month_text_no_sep (sep : ascii) (a : string) (d : Z) :
  sep = "/"%char \/ sep = "-"%char ->
  month_text a = Some d -> occurs sep a = false.
Proof.
  intros Hsep Ha.
  apply month_text_cases in Ha as [(c & -> & Hp & _)|(c1 & c2 & -> & Hp & _)]; simpl;
    rewrite ?orb_false_r, ?orb_false_iff; repeat split; no_sep_case Hsep Hp.
Qed.

Lemma year_text_four (c c' r r' : string) (y y' : Z) :
  year_text c = Some y -> year_text c' = Some y' ->
  (c ++ r)%string = (c' ++ r')%string -> c = c' /\ r = r'.
Proof.
  intros Hc Hc' H.
  destruct c as [|c1 [|c2 [|c3 [|c4 [|c5 c]]]]]; try discriminate.
  destruct c' as [|d1 [|d2 [|d3 [|d4 [|d5 c']]]]]; try discriminate.
  simpl in H. inversion H. auto.
Qed.

(** The matcher finds exactly the ways [reads] describes. *)
Lemma run_reads (ds : list directive) :
  forall t s t' r, In (t', r) (run ds t s) <-> reads ds t s t' r.
Proof.
  induction ds as [|d ds IH]; intros t s t' r.
  - simpl. split.
    + intros [H|[]]. inversion H. auto.
    + intros [-> ->]. now left.
  - destruct d as [| | |c]; cbn [run reads].
    + rewrite in_flat_map. split.
      * intros ([n s1] & Hin & Hrun). apply day_alts_spec in Hin as (a & -> & Ha).
        apply IH in Hrun. eauto 6.
      * intros (a & n & s1 & -> & Ha & Hr). exists (n, s1). split.
        -- apply day_alts_spec. eauto.
        -- now apply IH.
    + rewrite in_flat_map. split.
      * intros ([n s1] & Hin & Hrun). apply month_alts_spec in Hin as (a & -> & Ha).
        apply IH in Hrun. eauto 6.
      * intros (a & n & s1 & -> & Ha & Hr). exists (n, s1). split.
        -- apply month_alts_spec. eauto.
        -- now apply IH.
    + rewrite in_flat_map. split.
      * intros ([n s1] & Hin & Hrun). apply year_alts_spec in Hin as (a & -> & Ha).
        apply IH in Hrun. eauto 6.
      * intros (a & n & s1 & -> & Ha & Hr). exists (n, s1). split.
        -- apply year_alts_spec. eauto.
        -- now apply IH.
    + destruct s as [|c' s1].
      * split; [intros [] | intros (s1 & H & _); discriminate].
      * destruct (Ascii.eqb c c') eqn:E.
        -- apply Ascii.eqb_eq in E. subst c'. rewrite IH. split; eauto.
           intros (s2 & H & Hr). inversion H. now subst.
        -- apply Ascii.eqb_neq in E. split; [intros [] | intros (s2 & H & _)].
           inversion H. congruence.
Qed.

Lemma strptime_outcome (s fmt : string) (ds : list directive) :
  compile fmt = Some ds -> strptime s fmt = outcome ds s.
Proof. intros H. unfold strptime, outcome. now rewrite H. Qed.

Lemma append_empty (s : string) : (s ++ "")%string = s.
Proof. induction s as [|c s IH]; simpl; congruence. Qed.

Section WholeText.

Variable sep : ascii.
Variables textA textB : string -> option Z.
Variable mk : Z -> Z -> Z -> fields.
Variable ds : list directive.

Hypothesis no_sep_A : forall a x, textA a = Some x -> occurs sep a = false.
Hypothesis no_sep_B : forall b y, textB b = Some y -> occurs sep b = false.
Hypothesis reads_ds :
  forall s t r,
    reads ds defaults s t r
    <-> exists a b c x y z,
        s = (a ++ String sep (b ++ String sep (c ++ r)))%string
        /\ textA a = Some x /\ textB b = Some y /\ year_text c = Some z
        /\ t = mk x y z.

(** [strptime] succeeds exactly on the texts that are, as a whole, a field
    [A], the separator, a field [B], the separator and a year, naming a date
    that exists: the first match the matcher reports is the only one. *)
Lemma outcome_whole_text (s : string) :
  outcome ds s <> None
  <-> exists a b c x y z,
      s = (a ++ String sep (b ++ String sep c))%string
      /\ textA a = Some x /\ textB b = Some y /\ year_text c = Some z
      /\ date_exists (mk x y z) = true.
Proof.
  unfold outcome. split.
  - destruct (run ds defaults s) as [|[t rest] l] eqn:E; [congruence|].
    destruct (String.eqb rest "") eqn:Hrest; [|congruence].
    destruct (date_exists t) eqn:Hdate; [|congruence]. intros _.
    apply String.eqb_eq in Hrest. subst rest.
    assert (Hin : In (t, "") (run ds defaults s)) by (rewrite E; now left).
    apply run_reads, reads_ds in Hin as (a & b & c & x & y & z & Hs & Ha & Hb & Hc & Ht).
    rewrite append_empty in Hs. subst t. exists a, b, c, x, y, z. auto.
  - intros (a & b & c & x & y & z & Hs & Ha & Hb & Hc & Hdate).
    assert (Hin : In (mk x y z, "") (run ds defaults s)).
    { apply run_reads, reads_ds. exists a, b, c, x, y, z.
      rewrite append_empty. auto. }
    destruct (run ds defaults s) as [|[t rest] l] eqn:E; [destruct Hin|].
    assert (Hhead : In (t, rest) (run ds defaults s)) by (rewrite E; now left).
    apply run_reads, reads_ds in Hhead
        as (a' & b' & c' & x' & y' & z' & Hs' & Ha' & Hb' & Hc' & Ht).
    rewrite Hs in Hs'.
    apply split_at_first in Hs' as [<- Hs']; eauto.
    apply split_at_first in Hs' as [<- Hs']; eauto.
    rewrite <- (append_empty c) in Hs' at 1.
    destruct (year_text_four c c' "" rest z z' Hc Hc' Hs') as [<- <-].
    assert (x' = x) by congruence. assert (y' = y) by congruence.
    assert (z' = z) by congruence. subst. simpl. rewrite Hdate. discriminate.
Qed.

End WholeText.

Lemma strptime_dmy (s : string) : strptime s "%d/%m/%Y" <> None <-> parses_dmy s.
Proof.
  rewrite (strptime_outcome s _ [Day; Lit "/"; Month; Lit "/"; Year]) by reflexivity.
  rewrite (outcome_whole_text "/" day_text month_text
             (fun d m y => {| year := y; month := m; day := d |})).
  - unfold parses_dmy. split.
    + intros (a & b & c & x & y & z & H). exists a, b, c, x, y, z. exact H.
    + intros (a & b & c & x & y & z & H). exists a, b, c, x, y, z. exact H.
  - intros a x. apply day_text_no_sep. now left.
  - intros b y. apply month_text_no_sep. now left.
  - intros s0 t r. cbn [reads]. split.
    + intros (a & x & s1 & -> & Ha & s2 & -> & b & y & s3 & -> & Hb & s4 & -> & c & z & s5
              & -> & Hc & -> & ->).
      exists a, b, c, x, y, z. auto.
    + intros (a & b & c & x & y & z & -> & Ha & Hb & Hc & ->).
      exists a, x, (String "/" (b ++ String "/" (c ++ r)))%string.
      split; [reflexivity|]. split; [exact Ha|].
      exists (b ++ String "/" (c ++ r))%string. split; [reflexivity|].
      exists b, y, (String "/" (c ++ r))%string.
      split; [reflexivity|]. split; [exact Hb|].
      exists (c ++ r)%string. split; [reflexivity|].
      exists c, z, r. auto.
Qed.

Lemma strptime_mdy (s : string) : strptime s "%m-%d-%Y" <> None <-> parses_mdy s.
Proof.
  rewrite (strptime_outcome s _ [Month; Lit "-"; Day; Lit "-"; Year]) by reflexivity.
  rewrite (outcome_whole_text "-" month_text day_text
             (fun m d y => {| year := y; month := m; day := d |})).
  - unfold parses_mdy. split.
    + intros (a & b & c & x & y & z & H). exists a, b, c, y, x, z. exact H.
    + intros (a & b & c & x & y & z & H). exists a, b, c, y, x, z. exact H.
  - intros a x. apply month_text_no_sep. now right.
  - intros b y. apply day_text_no_sep. now right.
  - intros s0 t r. cbn [reads]. split.
    + intros (a & x & s1 & -> & Ha & s2 & -> & b & y & s3 & -> & Hb & s4 & -> & c & z & s5
              & -> & Hc & -> & ->).
      exists a, b, c, x, y, z. auto.
    + intros (a & b & c & x & y & z & -> & Ha & Hb & Hc & ->).
      exists a, x, (String "-" (b ++ String "-" (c ++ r)))%string.
      split; [reflexivity|]. split; [exact Ha|].
      exists (b ++ String "-" (c ++ r))%string. split; [reflexivity|].
      exists b, y, (String "-" (c ++ r))%string.
      split; [reflexivity|]. split; [exact Hb|].
      exists (c ++ r)%string. split; [reflexivity|].
      exists c, z, r. auto.
Qed.

(** [validate_date] passes exactly the cells whose text parses, as a whole,
    under one of the two patterns. *)
Lemma validate_date_whole_text (v : value) :
  validate_date v = true
  <-> exists s, Py.str v = Some s /\ (parses_dmy s \/ parses_mdy s).
Proof.
  unfold validate_date, formats. cbn [try_formats].
  destruct (Py.str v) as [s|].
  - pose proof (strptime_dmy s) as H1. pose proof (strptime_mdy s) as H2.
    destruct (strptime s "%d/%m/%Y") as [t1|]; [|destruct (strptime s "%m-%d-%Y") as [t2|]].
    + split; [intros _ | reflexivity]. exists s. split; trivial. left. apply H1. discriminate.
    + split; [intros _ | reflexivity]. exists s. split; trivial. right. apply H2. discriminate.
    + split; [discriminate|]. intros (s' & Hs & [H|H]); inversion Hs; subst s'.
      * apply H1 in H. congruence.
      * apply H2 in H. congruence.
  - split; [discriminate | intros (s & H & _); discriminate].
Qed.

End DateFacts.

(** C3: a date cell of ASCII text passes [validate_date] if and only if
    its whole text parses under one of the two patterns, day/month/year
    separated by [/] or month-day-year separated by [-].  "31/12/2024" and
    "12-31-2024" pass, "2024/12/31" fails, and a row gets the reason "Invalid
    date (dd/mm/yyyy or mm-dd-yyyy)" exactly when its date is absent or fails
    both patterns. *)
Theorem date_passes_iff_whole_text_parses :
  (forall v : value,
      ascii_cell v = true ->
      validate_date v = true
      <-> exists s, Py.str v = Some s /\ (DateText.parses_dmy s \/ DateText.parses_mdy s))
  /\ validate_date (VStr "31/12/2024") = true
  /\ validate_date (VStr "12-31-2024") = true
  /\ validate_date (VStr "2024/12/31") = false
  /\ (forall (row : Row) (seen_ids : id_set),
      ascii_cell (date row) = true ->
      In "Invalid date (dd/mm/yyyy or mm-dd-yyyy)" (row_reasons row seen_ids)
      <-> isna (date row) = true \/ validate_date (date row) = false).
Proof.
  split; [intros v _; apply DateFacts.validate_date_whole_text|].
  repeat split; try reflexivity.
  - rewrite row_reasons_errors, errors_date by auto. unfold check_date.
    destruct (isna (date row)); [|destruct (validate_date (date row))]; simpl;
      intuition discriminate.
  - rewrite row_reasons_errors, errors_date by auto. unfold check_date.
    destruct (isna (date row)); [|destruct (validate_date (date row))]; simpl;
      intuition discriminate.
Qed.

(** The date "31/12/2024": ASCII text that passes, and parses as a whole. *)
Lemma date_passes_iff_whole_text_parses_witness :
  ascii_cell (VStr "31/12/2024") = true
  /\ (validate_date (VStr "31/12/2024") = true
      <-> exists s, Py.str (VStr "31/12/2024") = Some s
                    /\ (DateText.parses_dmy s \/ DateText.parses_mdy s)).
Proof.
  split; [reflexivity|].
  exact (proj1 date_passes_iff_whole_text_parses (VStr "31/12/2024") (Logic.eq_refl _)).
Defined.

(** * Further properties of the program *)

(** ** Verdicts *)

Lemma validated_shape (df : list Row) (e : Entry) :
  In e (validated df) ->
  exists row seen_ids,
    status e = fst (fst (validate_row row seen_ids))
    /\ error_message e = snd (fst (validate_row row seen_ids)).
Proof. rewrite validated_entries. apply entries_shape. Qed.

Lemma status_cases (row : Row) (seen_ids : id_set) :
  (fst (row_errors row seen_ids) = []
   /\ fst (validate_row row seen_ids) = ("Valid", "No errors"))
  \/ (fst (row_errors row seen_ids) <> []
      /\ fst (validate_row row seen_ids)
         = ("Invalid", Text.join "; " (fst (row_errors row seen_ids)))).
Proof.
  unfold validate_row. destruct (row_errors row seen_ids) as [[|r l] s]; cbn [fst snd].
  - left. auto.
  - right. split; [discriminate | reflexivity].
Qed.

Lemma reason_lists_well_shaped : forallb well_shaped reason_lists = true.
Proof. vm_compute. reflexivity. Qed.

Lemma no_repeat_NoDup (l : list string) : no_repeat l = true -> NoDup l.
Proof.
  induction l as [|x l IH]; simpl; intros H; constructor.
  - apply andb_true_iff in H as [H _]. apply negb_true_iff in H.
    intros Hin. apply mem_string_In in Hin. congruence.
  - apply andb_true_iff in H as [_ H]. auto.
Qed.

Lemma row_errors_shape (row : Row) (seen_ids : id_set) :
  let errors := fst (row_errors row seen_ids) in
  List.length errors <= 5 /\ NoDup errors
  /\ ~ (In "Missing order_id" errors /\ In "Duplicate order_id" errors).
Proof.
  cbv zeta. pose proof (row_errors_listed row seen_ids) as Hin.
  pose proof reason_lists_well_shaped as Hall.
  rewrite forallb_forall in Hall. specialize (Hall _ Hin). unfold well_shaped in Hall.
  apply andb_true_iff in Hall as [Hall Hboth].
  apply andb_true_iff in Hall as [Hlen Hrep].
  apply Nat.leb_le in Hlen. apply no_repeat_NoDup in Hrep.
  repeat split; trivial.
  intros [H1 H2]. apply mem_string_In in H1, H2. rewrite H1, H2 in Hboth. discriminate.
Qed.

Lemma status_counts (l : list Entry) :
  Forall (fun e => status e = "Valid" \/ status e = "Invalid") l ->
  List.length (filter (fun e => String.eqb (status e) "Valid") l)
  + List.length (filter (fun e => String.eqb (status e) "Invalid") l)
  = List.length l.
Proof.
  induction 1 as [|e l He _ IH]; [reflexivity|].
  cbn [filter]. destruct He as [He|He]; rewrite He; simpl; lia.
Qed.

(** X1. Every row of the validated table is "Valid" or "Invalid", so the
    counts of valid and of invalid rows add up to the total. *)
Theorem valid_plus_invalid_is_total (df : list Row) :
  let s := stats (validated df) in
  Forall (fun e => status e = "Valid" \/ status e = "Invalid") (validated df)
  /\ (valid s + invalid s = total s)%Z
  /\ total s = Z.of_nat (List.length df).
Proof.
  cbv zeta.
  assert (Hst : Forall (fun e => status e = "Valid" \/ status e = "Invalid") (validated df)).
  { apply Forall_forall. intros e He.
    destruct (validated_shape df e He) as (row & seen_ids & Hs & _).
    destruct (status_cases row seen_ids) as [[_ H]|[_ H]]; rewrite H in Hs; auto. }
  split; [exact Hst|]. unfold stats, count_status. cbn [valid invalid total].
  split; [|now rewrite validated_length].
  rewrite <- Nat2Z.inj_add. f_equal. now apply status_counts.
Qed.

(** The verdict of each row of the validated table. *)
Lemma validated_verdicts (df : list Row) :
  Forall (fun e =>
            (status e = "Valid" /\ error_message e = "No errors")
            \/ (status e = "Invalid"
                /\ error_message e = Text.join "; " (reasons (error_message e))
                /\ 1 <= List.length (reasons (error_message e)) <= 5
                /\ NoDup (reasons (error_message e))
                /\ incl (reasons (error_message e)) reason_texts
                /\ ~ (In "Missing order_id" (reasons (error_message e))
                      /\ In "Duplicate order_id" (reasons (error_message e)))))
         (validated df).
Proof.
  apply Forall_forall. intros e He.
  destruct (validated_shape df e He) as (row & seen_ids & Hs & Hm).
  destruct (status_cases row seen_ids) as [[_ H]|[Hne H]]; rewrite H in Hs, Hm;
    cbn [fst snd] in Hs, Hm.
  - left. auto.
  - right. rewrite Hm, (reasons_join row seen_ids Hne).
    destruct (row_errors_shape row seen_ids) as (Hlen & Hnd & Hboth).
    repeat split; trivial.
    + destruct (fst (row_errors row seen_ids)); [congruence | simpl; lia].
    + intros r Hr. eapply row_errors_texts; eauto.
Qed.

(** X2. A valid row has the message "No errors".  An invalid row has as
    its message its reasons joined by "; ": between one and five reasons, all
    among the eight reason texts, none twice, and never both reasons about the
    identifier. *)
Theorem verdict_shape (df : list Row) :
  Forall (fun e =>
            (status e = "Valid" /\ error_message e = "No errors")
            \/ (status e = "Invalid"
                /\ error_message e = Text.join "; " (reasons (error_message e))
                /\ 1 <= List.length (reasons (error_message e)) <= 5
                /\ NoDup (reasons (error_message e))
                /\ incl (reasons (error_message e)) reason_texts
                /\ ~ (In "Missing order_id" (reasons (error_message e))
                      /\ In "Duplicate order_id" (reasons (error_message e)))))
         (validated df).
Proof. exact (validated_verdicts df). Qed.

(** ** Rows added, rows removed *)

Lemma entries_from_app (df more : list Row) :
  forall i s,
    entries_from i s (df ++ more)
    = entries_from i s df
        ++ entries_from (i + List.length df) (fold_left step_seen df s) more.
Proof.
  induction df as [|row df IH]; intros i s.
  - simpl. now rewrite Nat.add_0_r.
  - rewrite <- app_comm_cons, !entries_from_cons, IH. cbn [fold_left List.length app].
    now rewrite Nat.add_succ_r.
Qed.

(** X3. Rows appended to a table leave the verdicts of the rows before
    them as they were: the validated table of [df ++ more] starts with the
    validated table of [df]. *)
Theorem earlier_verdicts_stay (df more : list Row) :
  firstn (List.length df) (validated (df ++ more)) = validated df
  /\ List.length (skipn (List.length df) (validated (df ++ more))) = List.length more.
Proof.
  rewrite !validated_entries, entries_from_app.
  rewrite <- (entries_length df 0 []) at 1 3.
  rewrite firstn_app, Nat.sub_diag, firstn_all, firstn_O, app_nil_r.
  split; [reflexivity|].
  rewrite skipn_app, Nat.sub_diag, skipn_all, skipn_O. simpl. apply entries_length.
Qed.

Lemma valid_iff_no_errors (row : Row) (seen_ids : id_set) :
  fst (fst (validate_row row seen_ids)) = "Valid" <-> fst (row_errors row seen_ids) = [].
Proof.
  destruct (status_cases row seen_ids) as [[He H]|[He H]]; rewrite H; cbn [fst].
  - tauto.
  - split; [discriminate | congruence].
Qed.

(** A row passes when its identifier is present and new and the four other
    checks, which do not look at [seen_ids], pass. *)
Lemma no_errors_iff (row : Row) (seen_ids : id_set) :
  fst (row_errors row seen_ids) = []
  <-> isna (order_id row) = false /\ set_mem (order_id row) seen_ids = false
      /\ check_item row ++ check_date row ++ check_quantity row ++ check_price row = [].
Proof.
  rewrite row_errors_checks. unfold check_order_id.
  destruct (isna (order_id row)); [|destruct (set_mem (order_id row) seen_ids)];
    cbn [app]; split; try discriminate; try tauto.
  - intros (H & _). discriminate.
  - intros (_ & H & _). discriminate.
Qed.

Lemma step_seen_mem (x : value) (row : Row) (s : id_set) :
  set_mem x (step_seen s row)
  = negb (isna (order_id row)) && Py.eq (order_id row) x || set_mem x s.
Proof.
  unfold step_seen. rewrite validate_row_seen.
  destruct (isna (order_id row)); [reflexivity|]. now rewrite set_mem_add.
Qed.

Lemma revalidate_valid (df : list Row) :
  forall i j s s',
    (forall x, set_mem x s' = true -> set_mem x s = true) ->
    Forall (fun e => status e = "Valid")
           (entries_from j s' (map data (valid_df (entries_from i s df)))).
Proof.
  induction df as [|row df IH]; intros i j s s' Hsub; [constructor|].
  rewrite entries_from_cons. unfold valid_df. cbn [filter].
  fold (valid_df (entries_from (S i) (step_seen s row) df)).
  destruct (String.eqb (status (entry i row s)) "Valid") eqn:Hst.
  - apply String.eqb_eq in Hst. cbn [status entry] in Hst.
    apply valid_iff_no_errors, no_errors_iff in Hst as (Hna & Hmem & Hrest).
    cbn [map data entry]. rewrite entries_from_cons. constructor.
    + cbn [status entry]. apply valid_iff_no_errors, no_errors_iff.
      repeat split; trivial.
      destruct (set_mem (order_id row) s') eqn:E; trivial.
      apply Hsub in E. congruence.
    + apply IH. intros x. rewrite !step_seen_mem.
      destruct (negb (isna (order_id row)) && Py.eq (order_id row) x); simpl; auto.
  - apply IH. intros x Hx. rewrite step_seen_mem. apply Hsub in Hx. rewrite Hx.
    apply orb_true_r.
Qed.

(** X4. The valid rows of a table, validated again on their own, are all
    valid: what "Valid only" exports passes when it is uploaded again. *)
Theorem valid_rows_stay_valid (df : list Row) :
  Forall (fun e => status e = "Valid" /\ error_message e = "No errors")
         (validated (map data (valid_df (validated df))))
  /\ List.length (validated (map data (valid_df (validated df))))
     = List.length (valid_df (validated df)).
Proof.
  split.
  - pose proof (validated_verdicts (map data (valid_df (validated df)))) as Hshape.
    pose proof (revalidate_valid df 0 0 [] [] (fun x H => H)) as Hvalid.
    rewrite <- !validated_entries in Hvalid.
    rewrite Forall_forall in *. intros e He.
    destruct (Hshape e He) as [H|[H _]]; [exact H|].
    rewrite (Hvalid e He) in H. discriminate.
  - now rewrite validated_length, length_map.
Qed.

(** ** The identifiers seen *)

Lemma set_mem_snoc (x y : value) (s : id_set) :
  set_mem x (s ++ [y]) = set_mem x s || Py.eq y x.
Proof. unfold set_mem. rewrite existsb_app. simpl. now rewrite orb_false_r. Qed.

Lemma all_distinct_add (x : value) (s : id_set) :
  all_distinct s = true -> all_distinct (set_add x s) = true.
Proof.
  unfold set_add. destruct (set_mem x s) eqn:Hx; trivial. revert Hx.
  induction s as [|y s IH]; intros Hx Hs; [reflexivity|].
  cbn [all_distinct app] in *. apply andb_true_iff in Hs as [Hy Hs].
  unfold set_mem in Hx. cbn [existsb] in Hx. apply orb_false_iff in Hx as [Hyx Hx].
  rewrite set_mem_snoc, IH by assumption.
  apply negb_true_iff in Hy. rewrite Hy, (py_eq_sym x y), Hyx. reflexivity.
Qed.

Lemma seen_fold_invariant (df : list Row) :
  forall s,
    all_distinct s = true -> Forall (fun x => isna x = false) s ->
    all_distinct (fold_left step_seen df s) = true
    /\ Forall (fun x => isna x = false) (fold_left step_seen df s).
Proof.
  induction df as [|row df IH]; intros s Hd Hp; [auto|].
  cbn [fold_left]. apply IH; unfold step_seen; rewrite validate_row_seen;
    destruct (isna (order_id row)) eqn:Hna; trivial.
  - now apply all_distinct_add.
  - unfold set_add. destruct (set_mem (order_id row) s); trivial.
    apply Forall_app. split; trivial. constructor; [exact Hna | constructor].
Qed.

(** X5. Whatever the table, [seen_ids] ends up holding present identifiers
    only, no two of them equal, and an identifier is in it exactly when it
    equals the identifier of some row. *)
Theorem seen_ids_distinct_and_present (df : list Row) :
  all_distinct (seen_after df) = true
  /\ Forall (fun x => isna x = false) (seen_after df)
  /\ forall x, set_mem x (seen_after df) = existsb (fun r => Py.eq (order_id r) x) df.
Proof.
  rewrite seen_after_fold.
  destruct (seen_fold_invariant df [] (Logic.eq_refl _) (Forall_nil _)) as [Hd Hp].
  repeat split; trivial. intros x. rewrite <- seen_after_fold. apply seen_after_mem.
Qed.

Lemma has_duplicate_reason (i : nat) (row : Row) (s : id_set) :
  has_reason "Duplicate order_id" (entry i row s)
  = negb (isna (order_id row)) && set_mem (order_id row) s.
Proof.
  unfold has_reason. cbn [error_message entry].
  change (reasons (snd (fst (validate_row row s)))) with (row_reasons row s).
  apply Bool.eq_iff_eq_true.
  rewrite mem_string_In, row_reasons_errors, errors_order_id by auto.
  unfold check_order_id.
  destruct (isna (order_id row)); [|destruct (set_mem (order_id row) s)]; simpl;
    intuition discriminate.
Qed.

Lemma seen_fold_count (df : list Row) :
  forall i s,
    List.length (fold_left step_seen df s)
    + List.length (filter (has_reason "Duplicate order_id") (entries_from i s df))
    = List.length s + List.length (filter (fun r => negb (isna (order_id r))) df).
Proof.
  induction df as [|row df IH]; intros i s; [simpl; lia|].
  rewrite entries_from_cons. cbn [fold_left filter].
  rewrite has_duplicate_reason. specialize (IH (S i) (step_seen s row)).
  unfold step_seen in *. rewrite validate_row_seen in *.
  destruct (isna (order_id row)); cbn [negb andb List.length]; [lia|].
  unfold set_add in *. destruct (set_mem (order_id row) s); cbn [List.length].
  - lia.
  - rewrite length_app in IH. simpl in IH. lia.
Qed.

(** X6. The identifiers stored at the end of a run and the rows flagged
    "Duplicate order_id" together account for every row with an identifier:
    each such row either brought a new identifier or was flagged. *)
Theorem stored_plus_flagged_is_present (df : list Row) :
  List.length (seen_after df)
  + List.length (filter (has_reason "Duplicate order_id") (validated df))
  = List.length (filter (fun r => negb (isna (order_id r))) df).
Proof.
  rewrite seen_after_fold, validated_entries. apply (seen_fold_count df 0 []).
Qed.

(** ** Absent and fractional numbers *)

Lemma isna_NaN (v : value) : isna v = true -> v = NaN.
Proof.
  destruct v as [s|z|f|b]; try discriminate. destruct f; try discriminate. reflexivity.
Qed.

(** X7. A row whose price cell is absent gets no reason about the price
    ([float] of a missing cell is NaN, which is not below zero), whereas a row
    whose quantity cell is absent gets "Invalid quantity". *)
Theorem absent_price_passes (row : Row) (seen_ids : id_set) :
  (isna (price row) = true ->
   ~ In "Invalid price" (row_reasons row seen_ids)
   /\ ~ In "Negative price" (row_reasons row seen_ids))
  /\ (isna (quantity row) = true -> In "Invalid quantity" (row_reasons row seen_ids)).
Proof.
  split.
  - intros Hna. apply isna_NaN in Hna.
    rewrite !row_reasons_errors, !errors_price by auto.
    unfold check_price. rewrite Hna. simpl. tauto.
  - intros Hna. apply isna_NaN in Hna.
    rewrite row_reasons_errors, errors_quantity by auto.
    unfold check_quantity. rewrite Hna. simpl. tauto.
Qed.

(** The row of missing cells: no reason about its price, "Invalid quantity"
    for its quantity. *)
Lemma absent_price_passes_witness :
  isna (price missing_row) = true /\ isna (quantity missing_row) = true
  /\ ~ In "Invalid price" (row_reasons missing_row [])
  /\ ~ In "Negative price" (row_reasons missing_row [])
  /\ In "Invalid quantity" (row_reasons missing_row []).
Proof.
  split; [reflexivity | split; [reflexivity|]].
  pose (H := absent_price_passes missing_row []).
  exact (conj (proj1 (proj1 H (Logic.eq_refl _)))
              (conj (proj2 (proj1 H (Logic.eq_refl _))) (proj2 H (Logic.eq_refl _)))).
Defined.

(** X8. A float quantity is cut to its integer part before its sign is
    looked at: a fraction strictly between -1 and 1, negative ones included,
    counts as 0 and gets no reason about the quantity. *)
Theorem fractional_quantity_passes
  (row : Row) (seen_ids : id_set) (neg : bool) (m : positive) (e : Z) :
  quantity row = VFloat (S754_finite neg m e) ->
  (Zpos m < 2 ^ (- e))%Z ->
  Py.int (quantity row) = Some 0%Z
  /\ ~ In "Negative quantity" (row_reasons row seen_ids)
  /\ ~ In "Invalid quantity" (row_reasons row seen_ids).
Proof.
  intros Hq Hm.
  assert (Hint : Py.int (quantity row) = Some 0%Z).
  { rewrite Hq. cbn [Py.int Py.int_of_float].
    destruct (0 <=? e)%Z eqn:He.
    - apply Z.leb_le in He. exfalso.
      assert (2 ^ (- e) <= 1)%Z.
      { destruct (Z.eq_dec e 0) as [->|Hne]; [simpl; lia|].
        rewrite Z.pow_neg_r by lia. lia. }
      lia.
    - apply Z.leb_gt in He.
      rewrite Z.shiftr_div_pow2 by lia. rewrite Z.div_small by lia.
      destruct neg; reflexivity. }
  split; [exact Hint|].
  rewrite !row_reasons_errors, !errors_quantity by auto.
  unfold check_quantity. rewrite Hint. simpl. tauto.
Qed.

(** The quantity -0.5. *)
Lemma fractional_quantity_passes_witness :
  let row := with_quantity (VFloat (S754_finite true 1 (-1))) good_row in
  Py.int (quantity row) = Some 0%Z
  /\ ~ In "Negative quantity" (row_reasons row [])
  /\ ~ In "Invalid quantity" (row_reasons row []).
Proof.
  exact (fractional_quantity_passes
           (with_quantity (VFloat (S754_finite true 1 (-1))) good_row) [] true 1 (-1)
           (Logic.eq_refl _) (Logic.eq_refl _)).
Defined.

(** ** The error tally once more *)

Lemma count_of_tally (x k : string) (counts : list (string * nat)) :
  count_of k (tally x counts)
  = if String.eqb x k then S (count_of k counts) else count_of k counts.
Proof.
  induction counts as [|[k0 n] counts IH]; simpl.
  - destruct (String.eqb x k); reflexivity.
  - destruct (String.eqb k0 x) eqn:E0; simpl.
    + apply String.eqb_eq in E0. subst k0.
      destruct (String.eqb x k); reflexivity.
    + rewrite IH. destruct (String.eqb k0 k) eqn:E1; trivial.
      apply String.eqb_eq in E1. subst k0. now rewrite String.eqb_sym, E0.
Qed.

Lemma count_of_Counter (items : list string) (k : string) :
  count_of k (Counter items) = count_occ string_dec items k.
Proof.
  unfold Counter.
  assert (H : forall counts,
             count_of k (fold_left (fun c x => tally x c) items counts)
             = count_occ string_dec items k + count_of k counts).
  { induction items as [|x items IH]; intros counts; [reflexivity|].
    cbn [fold_left count_occ]. rewrite IH, count_of_tally.
    destruct (string_dec x k) as [->|Hne].
    - rewrite String.eqb_refl. lia.
    - apply String.eqb_neq in Hne. rewrite Hne. reflexivity. }
  rewrite H. simpl. lia.
Qed.

Lemma tally_keys_NoDup (x : string) (counts : list (string * nat)) :
  NoDup (keys counts) -> NoDup (keys (tally x counts)).
Proof.
  induction counts as [|[k0 n] counts IH]; simpl; intros H.
  - constructor; [intros [] | constructor].
  - inversion H as [|? ? Hk0 Hnd]. subst.
    destruct (String.eqb k0 x) eqn:E; simpl.
    + constructor; trivial.
    + constructor; [|now apply IH].
      intros Hin. apply tally_keys in Hin as [->|Hin]; [|contradiction].
      now rewrite String.eqb_refl in E.
Qed.

Lemma Counter_keys_NoDup (items : list string) : NoDup (keys (Counter items)).
Proof.
  unfold Counter.
  assert (H : forall counts, NoDup (keys counts) ->
                             NoDup (keys (fold_left (fun c x => tally x c) items counts))).
  { induction items as [|x items IH]; intros counts Hc; [exact Hc|].
    cbn [fold_left]. apply IH. now apply tally_keys_NoDup. }
  apply H. constructor.
Qed.

Lemma count_occ_NoDup (l : list string) (k : string) :
  NoDup l -> count_occ string_dec l k = if mem_string k l then 1 else 0.
Proof.
  intros Hnd. destruct (mem_string k l) eqn:E.
  - apply mem_string_In in E. now apply NoDup_count_occ'.
  - apply count_occ_not_In. intros Hin. apply mem_string_In in Hin. congruence.
Qed.

Lemma count_occ_reasons (l : list Entry) (k : string) :
  Forall (fun e => NoDup (reasons (error_message e))) l ->
  count_occ string_dec (flat_map (fun e => reasons (error_message e)) l) k
  = List.length (filter (has_reason k) l).
Proof.
  induction 1 as [|e l He _ IH]; [reflexivity|].
  cbn [flat_map filter]. rewrite count_occ_app, IH, (count_occ_NoDup _ k He).
  unfold has_reason. destruct (mem_string k (reasons (error_message e))); reflexivity.
Qed.

Lemma invalid_reasons_NoDup (df : list Row) :
  Forall (fun e => NoDup (reasons (error_message e))) (invalid_df (validated df)).
Proof.
  apply Forall_forall. intros e He. unfold invalid_df in He.
  apply filter_In in He as [He Hst]. apply String.eqb_eq in Hst.
  pose proof (validated_verdicts df) as Hv. rewrite Forall_forall in Hv.
  destruct (Hv e He) as [[H _]|(_ & _ & _ & H & _)]; [congruence | exact H].
Qed.

(** X9. In the error tally, the count of a reason is the number of invalid
    rows that carry it (0 when no invalid row does), and no reason is listed
    twice. *)
Theorem tally_counts_rows (df : list Row) :
  NoDup (keys (error_counts (validated df)))
  /\ forall r : string,
      count_of r (error_counts (validated df))
      = List.length (filter (has_reason r) (invalid_df (validated df))).
Proof.
  split; [apply Counter_keys_NoDup|]. intros r.
  unfold error_counts, error_list. rewrite count_of_Counter.
  apply count_occ_reasons, invalid_reasons_NoDup.
Qed.

Lemma invalid_reasons_nonempty (df : list Row) (e : Entry) :
  In e (invalid_df (validated df)) -> reasons (error_message e) <> [].
Proof.
  intros He. destruct (invalid_message df e He) as (row & seen_ids & Hne & ->).
  now rewrite reasons_join.
Qed.

(** X10. The dashboard and the "Errors" page agree on when there is
    nothing to report: the list of all reasons is empty exactly when no row is
    invalid, which is when the count of invalid rows is 0. *)
Theorem no_reasons_iff_no_invalid_rows (df : list Row) :
  (error_list (validated df) = [] <-> invalid_df (validated df) = [])
  /\ (invalid_df (validated df) = [] <-> invalid (stats (validated df)) = 0%Z)
  /\ all_errors (invalid_df (validated df)) = error_list (validated df).
Proof.
  repeat split.
  - unfold error_list. intros H.
    destruct (invalid_df (validated df)) as [|e l] eqn:E; trivial. exfalso.
    assert (He : In e (invalid_df (validated df))) by (rewrite E; now left).
    apply (invalid_reasons_nonempty df e He).
    cbn [flat_map] in H. now apply app_eq_nil in H as [H _].
  - unfold error_list. now intros ->.
  - unfold stats, count_status, invalid_df. cbn [invalid]. now intros ->.
  - unfold stats, count_status, invalid_df. cbn [invalid]. intros H.
    destruct (filter _ _); [reflexivity | simpl in H; lia].
Qed.

(** ** The error filter once more *)

(** X11. Selecting more never hides a row: for two non-empty selections,
    the rows shown for both together are the rows shown for the one or for the
    other. *)
Theorem filter_selection_union (sel1 sel2 : list string) (invalid : list Entry) :
  sel1 <> [] -> sel2 <> [] ->
  forall e, In e (filtered_df (sel1 ++ sel2) invalid)
            <-> In e (filtered_df sel1 invalid) \/ In e (filtered_df sel2 invalid).
Proof.
  intros H1 H2 e.
  destruct sel1 as [|a sel1]; [congruence|]. destruct sel2 as [|b sel2]; [congruence|].
  rewrite <- app_comm_cons. unfold filtered_df.
  rewrite !filter_In, app_comm_cons, existsb_app, orb_true_iff. tauto.
Qed.

(** Three invalid rows: those shown for "Missing item" or "Invalid
    quantity" are those shown for the one or for the other. *)
Lemma filter_selection_union_witness :
  let invalid := invalid_df (validated [missing_row; with_item (VStr " ") good_row;
                                        with_quantity (VStr "abc") good_row]) in
  ["Missing item"] <> [] /\ ["Invalid quantity"] <> []
  /\ forall e, In e (filtered_df (["Missing item"] ++ ["Invalid quantity"]) invalid)
               <-> In e (filtered_df ["Missing item"] invalid)
                   \/ In e (filtered_df ["Invalid quantity"] invalid).
Proof.
  split; [discriminate | split; [discriminate|]].
  apply filter_selection_union; discriminate.
Defined.

(** ** What the multiselect offers *)

Lemma insert_sorted_In (x y : string) (l : list string) :
  In y (insert_sorted x l) <-> y = x \/ In y l.
Proof.
  induction l as [|z l IH]; simpl.
  - intuition.
  - destruct (String.leb x z); simpl; [intuition|]. rewrite IH. intuition.
Qed.

Lemma sorted_In (y : string) (l : list string) : In y (sorted l) <-> In y l.
Proof.
  induction l as [|x l IH]; simpl; [tauto|].
  rewrite insert_sorted_In, IH. intuition.
Qed.

Lemma insert_sorted_NoDup (x : string) (l : list string) :
  ~ In x l -> NoDup l -> NoDup (insert_sorted x l).
Proof.
  induction l as [|z l IH]; simpl; intros Hx Hl.
  - constructor; [intros [] | constructor].
  - destruct (String.leb x z).
    + constructor; trivial.
    + inversion Hl as [|? ? Hz Hl']. subst. constructor.
      * rewrite insert_sorted_In. intros [->|H]; [apply Hx; now left | contradiction].
      * apply IH; trivial. intros H. apply Hx. now right.
Qed.

Lemma sorted_NoDup (l : list string) : NoDup l -> NoDup (sorted l).
Proof.
  induction 1 as [|x l Hx Hl IH]; simpl; [constructor|].
  apply insert_sorted_NoDup; trivial. now rewrite sorted_In.
Qed.

Lemma leb_swap (x z : string) : String.leb x z = false -> String.leb z x = true.
Proof. destruct (String.leb_total x z) as [H|H]; congruence. Qed.

Lemma insert_sorted_Sorted (x : string) (l : list string) :
  Sorted (fun a b => String.leb a b = true) l ->
  Sorted (fun a b => String.leb a b = true) (insert_sorted x l).
Proof.
  induction l as [|z l IH]; simpl; intros Hl.
  - repeat constructor.
  - destruct (String.leb x z) eqn:E.
    + constructor; [exact Hl | constructor; exact E].
    + inversion Hl as [|? ? Hl' Hhd]. subst. constructor; [now apply IH|].
      destruct l as [|w l]; simpl.
      * constructor. now apply leb_swap.
      * destruct (String.leb x w); constructor.
        -- now apply leb_swap.
        -- now inversion Hhd.
Qed.

Lemma sorted_Sorted (l : list string) :
  Sorted (fun a b => String.leb a b = true) (sorted l).
Proof.
  induction l as [|x l IH]; simpl; [constructor|]. now apply insert_sorted_Sorted.
Qed.

Lemma leb_neq_ltb (a b : string) : String.leb a b = true -> a <> b -> String.ltb a b = true.
Proof.
  unfold String.leb, String.ltb. intros H Hne.
  destruct (String.compare a b) eqn:E; trivial; try discriminate.
  apply String.compare_eq_iff in E. contradiction.
Qed.

Lemma Sorted_strict (l : list string) :
  Sorted (fun a b => String.leb a b = true) l -> NoDup l ->
  Sorted (fun a b => String.ltb a b = true) l.
Proof.
  induction 1 as [|a l Hl IH Hhd]; intros Hnd; [constructor|].
  inversion Hnd as [|? ? Ha Hnd']. subst. constructor; [now apply IH|].
  destruct Hhd as [|b l Hab]; constructor.
  apply leb_neq_ltb; trivial. intros ->. apply Ha. now left.
Qed.

Lemma unique_errors_In (invalid : list Entry) (r : string) :
  In r (unique_errors invalid)
  <-> exists e, In e invalid /\ In r (reasons (error_message e)).
Proof.
  unfold unique_errors, all_errors. rewrite sorted_In, nodup_In, in_flat_map. tauto.
Qed.

Lemma invalid_reasons_texts (df : list Row) (e : Entry) (r : string) :
  In e (invalid_df (validated df)) -> In r (reasons (error_message e)) ->
  In r reason_texts.
Proof.
  intros He Hr. destruct (invalid_message df e He) as (row & seen_ids & Hne & Hm).
  rewrite Hm, reasons_join in Hr by exact Hne. eapply row_errors_texts; eauto.
Qed.

(** X12. The options of the multiselect are exactly the reasons some
    invalid row carries, each once, in increasing order; all of them are among
    the eight reason texts. *)
Theorem options_are_the_reasons_present (df : list Row) :
  let invalid := invalid_df (validated df) in
  (forall r, In r (unique_errors invalid)
             <-> exists e, In e invalid /\ In r (reasons (error_message e)))
  /\ NoDup (unique_errors invalid)
  /\ Sorted (fun a b => String.ltb a b = true) (unique_errors invalid)
  /\ incl (unique_errors invalid) reason_texts.
Proof.
  cbv zeta.
  assert (Hnd : NoDup (unique_errors (invalid_df (validated df)))).
  { unfold unique_errors. apply sorted_NoDup, NoDup_nodup. }
  split; [apply unique_errors_In | split; [exact Hnd | split]].
  - apply Sorted_strict; trivial. apply sorted_Sorted.
  - intros r Hr. apply unique_errors_In in Hr as (e & He & Hr).
    eapply invalid_reasons_texts; eauto.
Qed.

(** X13. When some row is invalid, the selection the page starts with is
    the first two options (the only one when there is one), it is not empty,
    and at least one row is shown for it. *)
Theorem default_selection_shows_rows (df : list Row) :
  invalid_df (validated df) <> [] ->
  let invalid := invalid_df (validated df) in
  let selected := default_selection (unique_errors invalid) in
  selected = firstn 2 (unique_errors invalid)
  /\ selected <> []
  /\ incl selected (unique_errors invalid)
  /\ filtered_df selected invalid <> [].
Proof.
  intros Hne. cbv zeta.
  assert (Hsel : default_selection (unique_errors (invalid_df (validated df)))
                 = firstn 2 (unique_errors (invalid_df (validated df)))).
  { unfold default_selection.
    destruct (unique_errors (invalid_df (validated df))) as [|a [|b l]]; reflexivity. }
  rewrite Hsel.
  assert (Hex : exists e0, In e0 (invalid_df (validated df))).
  { destruct (invalid_df (validated df)) as [|e0 l0]; [congruence | exists e0; now left]. }
  destruct Hex as (e0 & He0).
  pose proof (invalid_reasons_nonempty df e0 He0) as Hrs.
  destruct (reasons (error_message e0)) as [|r0 rs] eqn:Er; [congruence|].
  assert (Hr0 : In r0 (unique_errors (invalid_df (validated df)))).
  { apply unique_errors_In. exists e0. split; trivial. rewrite Er. now left. }
  destruct (unique_errors (invalid_df (validated df))) as [|k u] eqn:Eu; [destruct Hr0|].
  assert (Hk : In k (unique_errors (invalid_df (validated df)))) by (rewrite Eu; now left).
  apply unique_errors_In in Hk as (e & He & Hke).
  repeat split.
  - destruct u; discriminate.
  - intros x Hx. rewrite <- (firstn_skipn 2 (k :: u)). apply in_or_app. now left.
  - assert (Hin : In e (filtered_df (firstn 2 (k :: u)) (invalid_df (validated df)))).
    { assert (Hf : firstn 2 (k :: u) = k :: firstn 1 u) by reflexivity.
      rewrite Hf. unfold filtered_df. apply filter_In. split; trivial.
      cbn [existsb].
      rewrite (contains_reason df e k He (invalid_reasons_texts df e k He Hke)).
      apply mem_string_In in Hke. now rewrite Hke. }
    intros Hnil. rewrite Hnil in Hin. destruct Hin.
Qed.

(** A table of one valid row and the row of missing cells: four options,
    of which the first two are selected, and the invalid row is shown. *)
Lemma default_selection_shows_rows_witness :
  let invalid := invalid_df (validated [good_row; missing_row]) in
  let selected := default_selection (unique_errors invalid) in
  invalid <> []
  /\ selected = ["Invalid date (dd/mm/yyyy or mm-dd-yyyy)"; "Invalid quantity"]
  /\ selected = firstn 2 (unique_errors invalid)
  /\ selected <> []
  /\ incl selected (unique_errors invalid)
  /\ filtered_df selected invalid <> [].
Proof.
  split; [discriminate | split; [reflexivity|]].
  apply (default_selection_shows_rows [good_row; missing_row]). discriminate.
Defined.
(** ** The error breakdown *)

Lemma filtered_df_incl (selected : list string) (invalid : list Entry) (e : Entry) :
  In e (filtered_df selected invalid) -> In e invalid.
Proof.
  destruct selected; simpl; trivial. intros H. now apply filter_In in H.
Qed.

Lemma error_details_length (l : list Entry) :
  Forall (fun e => 1 <= List.length (reasons (error_message e)) <= 5) l ->
  List.length l <= List.length (error_details l) <= 5 * List.length l.
Proof.
  induction 1 as [|e l He _ IH]; [simpl; lia|].
  unfold error_details in *. cbn [flat_map List.length].
  rewrite length_app, length_map. lia.
Qed.

(** X14. The breakdown lists, for every row shown, each of its reasons
    with the label of the row, the reasons that were not selected included: it
    has between one and five records per row shown, and is empty only when no
    row is shown. *)
Theorem breakdown_covers_rows_shown (df : list Row) (selected : list string) :
  let shown := filtered_df selected (invalid_df (validated df)) in
  (forall i r, In (i, r) (error_details shown)
               <-> exists e, In e shown /\ index e = i /\ In r (reasons (error_message e)))
  /\ List.length shown <= List.length (error_details shown) <= 5 * List.length shown
  /\ (error_details shown = [] <-> shown = []).
Proof.
  cbv zeta.
  assert (Hlen : List.length (filtered_df selected (invalid_df (validated df)))
                 <= List.length (error_details
                                   (filtered_df selected (invalid_df (validated df))))
                 <= 5 * List.length (filtered_df selected (invalid_df (validated df)))).
  { apply error_details_length, Forall_forall. intros e He.
    apply filtered_df_incl in He. unfold invalid_df in He.
    apply filter_In in He as [He Hst]. apply String.eqb_eq in Hst.
    pose proof (validated_verdicts df) as Hv. rewrite Forall_forall in Hv.
    destruct (Hv e He) as [[H _]|(_ & _ & H & _)]; [congruence | exact H]. }
  split; [|split; [exact Hlen|]].
  - intros i r. unfold error_details. rewrite in_flat_map. split.
    + intros (e & He & Hin). apply in_map_iff in Hin as (r' & Heq & Hr).
      inversion Heq. subst. eauto.
    + intros (e & He & <- & Hr). exists e. split; trivial. now apply in_map.
  - split; intros H.
    + rewrite H in Hlen. simpl in Hlen.
      destruct (filtered_df selected (invalid_df (validated df))); [reflexivity|].
      simpl in Hlen. lia.
    + now rewrite H.
Qed.

(** ** Quick fixes *)

(** The suggestion for each of the eight reason texts. *)
Lemma quick_fix_texts (r : string) :
  In r reason_texts ->
  (quick_fix r = Some FillMissing <-> r = "Missing order_id" \/ r = "Missing item")
  /\ (quick_fix r = Some RemoveDuplicates <-> r = "Duplicate order_id")
  /\ (quick_fix r = Some ReformatDate <-> r = "Invalid date (dd/mm/yyyy or mm-dd-yyyy)")
  /\ (quick_fix r = None
      <-> r = "Negative quantity" \/ r = "Invalid quantity"
          \/ r = "Negative price" \/ r = "Invalid price").
Proof.
  intros Ht. unfold reason_texts in Ht. cbn [In] in Ht.
  destruct Ht as [<-|[<-|[<-|[<-|[<-|[<-|[<-|[<-|[]]]]]]]]].
  - assert (Hq : quick_fix "Missing order_id" = Some FillMissing) by reflexivity.
    rewrite Hq. repeat split; intros H; try discriminate H;
      repeat (destruct H as [H|H]; try discriminate H); auto.
  - assert (Hq : quick_fix "Duplicate order_id" = Some RemoveDuplicates) by reflexivity.
    rewrite Hq. repeat split; intros H; try discriminate H;
      repeat (destruct H as [H|H]; try discriminate H); auto.
  - assert (Hq : quick_fix "Missing item" = Some FillMissing) by reflexivity.
    rewrite Hq. repeat split; intros H; try discriminate H;
      repeat (destruct H as [H|H]; try discriminate H); auto.
  - assert (Hq : quick_fix "Invalid date (dd/mm/yyyy or mm-dd-yyyy)" = Some ReformatDate)
      by reflexivity.
    rewrite Hq. repeat split; intros H; try discriminate H;
      repeat (destruct H as [H|H]; try discriminate H); auto.
  - assert (Hq : quick_fix "Negative quantity" = None) by reflexivity.
    rewrite Hq. repeat split; intros H; try discriminate H;
      repeat (destruct H as [H|H]; try discriminate H); auto.
  - assert (Hq : quick_fix "Invalid quantity" = None) by reflexivity.
    rewrite Hq. repeat split; intros H; try discriminate H;
      repeat (destruct H as [H|H]; try discriminate H); auto.
  - assert (Hq : quick_fix "Negative price" = None) by reflexivity.
    rewrite Hq. repeat split; intros H; try discriminate H;
      repeat (destruct H as [H|H]; try discriminate H); auto 6.
  - assert (Hq : quick_fix "Invalid price" = None) by reflexivity.
    rewrite Hq. repeat split; intros H; try discriminate H;
      repeat (destruct H as [H|H]; try discriminate H); auto 6.
Qed.

(** X15. Of the reasons the validator gives, those about a missing
    identifier or item get the suggestion to fill in values, the duplicate
    reason the suggestion to remove duplicates, the date reason the suggestion
    to reformat, and the four reasons about quantity and price get none. *)
Theorem quick_fix_by_reason (df : list Row) (e : Entry) (r : string) :
  In e (invalid_df (validated df)) ->
  In r (reasons (error_message e)) ->
  (quick_fix r = Some FillMissing <-> r = "Missing order_id" \/ r = "Missing item")
  /\ (quick_fix r = Some RemoveDuplicates <-> r = "Duplicate order_id")
  /\ (quick_fix r = Some ReformatDate <-> r = "Invalid date (dd/mm/yyyy or mm-dd-yyyy)")
  /\ (quick_fix r = None
      <-> r = "Negative quantity" \/ r = "Invalid quantity"
          \/ r = "Negative price" \/ r = "Invalid price").
Proof.
  intros He Hr. apply quick_fix_texts. eapply invalid_reasons_texts; eauto.
Qed.

(** The row of missing cells and its reason "Invalid quantity", for which
    nothing is suggested. *)
Lemma quick_fix_by_reason_witness :
  let e := {| index := 0; data := missing_row; status := "Invalid";
              error_message :=
                "Missing order_id; Missing item; Invalid date (dd/mm/yyyy or mm-dd-yyyy); Invalid quantity" |} in
  In e (invalid_df (validated [missing_row]))
  /\ In "Invalid quantity" (reasons (error_message e))
  /\ (quick_fix "Invalid quantity" = None
      <-> "Invalid quantity" = "Negative quantity" \/ "Invalid quantity" = "Invalid quantity"
          \/ "Invalid quantity" = "Negative price" \/ "Invalid quantity" = "Invalid price").
Proof.
  cbv zeta.
  assert (He : In {| index := 0; data := missing_row; status := "Invalid";
              error_message :=
                "Missing order_id; Missing item; Invalid date (dd/mm/yyyy or mm-dd-yyyy); Invalid quantity" |}
                  (invalid_df (validated [missing_row]))).
  { vm_compute. left. reflexivity. }
  assert (Hr : In "Invalid quantity"
                  (reasons "Missing order_id; Missing item; Invalid date (dd/mm/yyyy or mm-dd-yyyy); Invalid quantity")).
  { vm_compute. right. right. right. left. reflexivity. }
  split; [exact He | split; [exact Hr|]].
  exact (proj2 (proj2 (proj2 (quick_fix_by_reason [missing_row] _ "Invalid quantity" He Hr)))).
Defined.

(** ** Required columns *)

Lemma has_column_In (columns : list string) (col : string) :
  has_column columns col = true <-> In col columns.
Proof.
  unfold has_column. rewrite existsb_exists. split.
  - intros (c & Hc & Heq). apply String.eqb_eq in Heq. now subst.
  - intros H. exists col. split; trivial. apply String.eqb_refl.
Qed.

(** X16. The run is stopped for missing columns exactly when one of the
    five required columns is not among the columns of the upload; the columns
    named in the error are exactly the required ones that are missing; and
    further columns, in whatever order, never turn a passing check into a
    failing one. *)
Theorem columns_checked (columns : list string) :
  (check_columns columns = None <-> incl required_cols columns)
  /\ (check_columns columns = None <-> missing_cols columns = [])
  /\ (forall col, In col (missing_cols columns)
                  <-> In col required_cols /\ ~ In col columns)
  /\ (forall more, incl columns more ->
                   check_columns columns = None -> check_columns more = None).
Proof.
  assert (Hall : forall cols, forallb (has_column cols) required_cols = true
                 <-> incl required_cols cols).
  { intros cols. rewrite forallb_forall. unfold incl.
    split; intros H c Hc; apply has_column_In; auto. }
  assert (Hmiss : forall col, In col (missing_cols columns)
                              <-> In col required_cols /\ ~ In col columns).
  { intros col. unfold missing_cols. rewrite filter_In, negb_true_iff.
    rewrite <- (has_column_In columns col), Bool.not_true_iff_false. tauto. }
  assert (Hnone : forall cols, check_columns cols = None <-> incl required_cols cols).
  { intros cols. unfold check_columns. rewrite <- Hall.
    destruct (forallb (has_column cols) required_cols); simpl;
      intuition discriminate. }
  split; [apply Hnone | split; [|split; [exact Hmiss|]]].
  - rewrite Hnone. split.
    + intros Hincl.
      assert (Hnot : forall c, ~ In c (missing_cols columns)).
      { intros c Hc. apply Hmiss in Hc as [Hc Hn]. auto. }
      destruct (missing_cols columns) as [|c l]; trivial.
      exfalso. apply (Hnot c). now left.
    + intros Hnil c Hc. apply has_column_In.
      destruct (has_column columns c) eqn:E; trivial.
      assert (Hin : In c (missing_cols columns)).
      { apply Hmiss. split; trivial. rewrite <- (has_column_In columns c). congruence. }
      rewrite Hnil in Hin. destruct Hin.
  - intros more Hincl. rewrite !Hnone. intros H c Hc. auto.
Qed.

(** ** Rows shown and exported *)

Lemma partition_by_status (l : list Entry) :
  Forall (fun e => status e = "Valid" \/ status e = "Invalid") l ->
  Permutation (filter (fun e => String.eqb (status e) "Valid") l
               ++ filter (fun e => String.eqb (status e) "Invalid") l) l.
Proof.
  induction 1 as [|e l He _ IH]; [constructor|].
  cbn [filter]. destruct He as [He|He]; rewrite He; simpl.
  - now constructor.
  - apply Permutation_sym, Permutation_cons_app, Permutation_sym, IH.
Qed.

Lemma validated_statuses (df : list Row) :
  Forall (fun e => status e = "Valid" \/ status e = "Invalid") (validated df).
Proof.
  apply Forall_forall. intros e He.
  destruct (validated_shape df e He) as (row & seen_ids & Hs & _).
  destruct (status_cases row seen_ids) as [[_ H]|[_ H]]; rewrite H in Hs; auto.
Qed.

(** X17. "Valid only" and "Invalid only" split the validated table: every
    row is shown or exported under exactly one of the two, as many rows as the
    counts of valid and invalid rows say; the rows under "Valid only" all have
    the message "No errors"; and "All rows" and "All data" leave nothing
    out. *)
Theorem rows_shown_partition (df : list Row) :
  let v := validated df in
  Permutation (select_rows "Valid only" v ++ select_rows "Invalid only" v) v
  /\ Z.of_nat (List.length (select_rows "Valid only" v)) = valid (stats v)
  /\ Z.of_nat (List.length (select_rows "Invalid only" v)) = invalid (stats v)
  /\ select_rows "All rows" v = v /\ select_rows "All data" v = v
  /\ Forall (fun e => error_message e = "No errors") (select_rows "Valid only" v).
Proof.
  cbv zeta. repeat split; try reflexivity.
  - apply partition_by_status, validated_statuses.
  - apply Forall_forall. intros e He.
    change (select_rows "Valid only" (validated df))
      with (filter (fun e => String.eqb (status e) "Valid") (validated df)) in He.
    apply filter_In in He as [He Hst]. apply String.eqb_eq in Hst.
    pose proof (validated_verdicts df) as Hv. rewrite Forall_forall in Hv.
    destruct (Hv e He) as [[_ H]|[H _]]; [exact H | congruence].
Qed.

(** ** Dates once more *)

Module MoreDateFacts.
Import Text Strptime DateText DateFacts.

Lemma occurs_app (c : ascii) (s t : string) :
  occurs c (s ++ t)%string = occurs c s || occurs c t.
Proof.
  induction s as [|x s IH]; simpl; [reflexivity|]. now rewrite IH, orb_assoc.
Qed.

Lemma year_text_no_sep (sep : ascii) (a : string) (y : Z) :
  sep = "/"%char \/ sep = "-"%char ->
  year_text a = Some y -> occurs sep a = false.
Proof.
  intros Hsep Ha.
  destruct a as [|c1 [|c2 [|c3 [|c4 [|c5 a]]]]]; try discriminate. simpl in Ha.
  destruct (is_digit c1 && is_digit c2 && is_digit c3 && is_digit c4) eqn:Hp;
    [|discriminate].
  apply andb_true_iff in Hp as [Hp H4]. apply andb_true_iff in Hp as [Hp H3].
  apply andb_true_iff in Hp as [H1 H2]. simpl.
  rewrite ?orb_false_r, ?orb_false_iff. repeat split;
    apply Ascii.eqb_neq; intros <-; destruct Hsep; subst; discriminate.
Qed.

Lemma fields_no_sep (sep : ascii) (a b c : string) (d m y : Z) :
  sep = "/"%char \/ sep = "-"%char ->
  day_text a = Some d -> month_text b = Some m -> year_text c = Some y ->
  occurs sep a = false /\ occurs sep b = false /\ occurs sep c = false.
Proof.
  intros Hsep Ha Hb Hc. repeat split.
  - eapply day_text_no_sep; eauto.
  - eapply month_text_no_sep; eauto.
  - eapply year_text_no_sep; eauto.
Qed.

Lemma dmy_separators (s : string) :
  parses_dmy s -> occurs "/" s = true /\ occurs "-" s = false.
Proof.
  intros (a & b & c & d & m & y & -> & Ha & Hb & Hc & _).
  destruct (fields_no_sep "-" a b c d m y (or_intror (Logic.eq_refl _)) Ha Hb Hc)
    as (H1 & H2 & H3).
  repeat (first [rewrite occurs_app | progress simpl]).
  rewrite H1, H2, H3, ?orb_true_r. split; reflexivity.
Qed.

Lemma mdy_separators (s : string) :
  parses_mdy s -> occurs "-" s = true /\ occurs "/" s = false.
Proof.
  intros (a & b & c & d & m & y & -> & Ha & Hb & Hc & _).
  destruct (fields_no_sep "/" b a c d m y (or_introl (Logic.eq_refl _)) Hb Ha Hc)
    as (H1 & H2 & H3).
  repeat (first [rewrite occurs_app | progress simpl]).
  rewrite H1, H2, H3, ?orb_true_r. split; reflexivity.
Qed.

Lemma dmy_of_fields (a b c : string) (d m y : Z) :
  day_text a = Some d -> month_text b = Some m -> year_text c = Some y ->
  parses_dmy (a ++ "/" ++ b ++ "/" ++ c)
  <-> date_exists {| year := y; month := m; day := d |} = true.
Proof.
  intros Ha Hb Hc. split.
  - intros (a' & b' & c' & d' & m' & y' & Hs & Ha' & Hb' & Hc' & Hdate).
    destruct (fields_no_sep "/" a b c d m y (or_introl (Logic.eq_refl _)) Ha Hb Hc)
      as (H1 & H2 & _).
    destruct (fields_no_sep "/" a' b' c' d' m' y' (or_introl (Logic.eq_refl _)) Ha' Hb' Hc')
      as (H1' & H2' & _).
    apply split_at_first in Hs as [<- Hs]; trivial.
    apply split_at_first in Hs as [<- <-]; trivial.
    congruence.
  - intros Hdate. exists a, b, c, d, m, y. auto.
Qed.

Lemma mdy_of_fields (a b c : string) (d m y : Z) :
  day_text a = Some d -> month_text b = Some m -> year_text c = Some y ->
  parses_mdy (b ++ "-" ++ a ++ "-" ++ c)
  <-> date_exists {| year := y; month := m; day := d |} = true.
Proof.
  intros Ha Hb Hc. split.
  - intros (b' & a' & c' & d' & m' & y' & Hs & Hb' & Ha' & Hc' & Hdate).
    destruct (fields_no_sep "-" a b c d m y (or_intror (Logic.eq_refl _)) Ha Hb Hc)
      as (H1 & H2 & _).
    destruct (fields_no_sep "-" a' b' c' d' m' y' (or_intror (Logic.eq_refl _)) Ha' Hb' Hc')
      as (H1' & H2' & _).
    apply split_at_first in Hs as [<- Hs]; trivial.
    apply split_at_first in Hs as [<- <-]; trivial.
    congruence.
  - intros Hdate. exists b, a, c, d, m, y. auto.
Qed.

Lemma validate_date_bool (s : string) (ok : bool) :
  (parses_dmy s \/ parses_mdy s <-> ok = true) -> validate_date (VStr s) = ok.
Proof.
  intros H. destruct (validate_date (VStr s)) eqn:E.
  - apply validate_date_whole_text in E as (s' & Hs & Hp). inversion Hs. subst s'.
    symmetry. now apply H.
  - destruct ok; trivial. rewrite <- E. apply validate_date_whole_text.
    exists s. split; [reflexivity|]. now apply H.
Qed.

End MoreDateFacts.

(** X18. For a day text, a month text and a year text, the date written
    day/month/year with [/] and the date written month-day-year with [-] pass
    exactly when the calendar has that day: the length of the month and leap
    years are checked, and the separator alone decides which field is the
    day. *)
Theorem date_of_field_texts (a b c : string) (d m y : Z) :
  DateText.day_text a = Some d ->
  DateText.month_text b = Some m ->
  DateText.year_text c = Some y ->
  validate_date (VStr (a ++ "/" ++ b ++ "/" ++ c))
  = Strptime.date_exists {| Strptime.year := y; Strptime.month := m; Strptime.day := d |}
  /\ validate_date (VStr (b ++ "-" ++ a ++ "-" ++ c))
     = Strptime.date_exists {| Strptime.year := y; Strptime.month := m; Strptime.day := d |}.
Proof.
  intros Ha Hb Hc. split; apply MoreDateFacts.validate_date_bool.
  - rewrite <- (MoreDateFacts.dmy_of_fields a b c d m y Ha Hb Hc). split; [|tauto].
    intros [H|H]; trivial. exfalso.
    apply MoreDateFacts.mdy_separators in H as [_ H].
    repeat (first [rewrite MoreDateFacts.occurs_app in H | progress simpl in H]).
    rewrite ?orb_true_r in H. discriminate.
  - rewrite <- (MoreDateFacts.mdy_of_fields a b c d m y Ha Hb Hc). split; [|tauto].
    intros [H|H]; trivial. exfalso.
    apply MoreDateFacts.dmy_separators in H as [_ H].
    repeat (first [rewrite MoreDateFacts.occurs_app in H | progress simpl in H]).
    rewrite ?orb_true_r in H. discriminate.
Qed.

(** 29 February 2023, which the calendar does not have. *)
Lemma date_of_field_texts_witness :
  validate_date (VStr ("29" ++ "/" ++ "02" ++ "/" ++ "2023")) = false
  /\ validate_date (VStr ("02" ++ "-" ++ "29" ++ "-" ++ "2023")) = false.
Proof.
  exact (date_of_field_texts "29" "02" "2023" 29 2 2023
           (Logic.eq_refl _) (Logic.eq_refl _) (Logic.eq_refl _)).
Defined.

(** X19. No text parses under both formats: a text that the first format
    reads has no [-] in it, and one that the second reads has no [/]. *)
Theorem one_format_at_most (s : string) :
  Strptime.strptime s "%d/%m/%Y" = None \/ Strptime.strptime s "%m-%d-%Y" = None.
Proof.
  destruct (Strptime.strptime s "%d/%m/%Y") as [t1|] eqn:E1; [|now left].
  destruct (Strptime.strptime s "%m-%d-%Y") as [t2|] eqn:E2; [|now right].
  exfalso.
  assert (H1 : DateText.parses_dmy s) by (apply DateFacts.strptime_dmy; congruence).
  assert (H2 : DateText.parses_mdy s) by (apply DateFacts.strptime_mdy; congruence).
  apply MoreDateFacts.dmy_separators in H1 as [_ H1].
  apply MoreDateFacts.mdy_separators in H2 as [H2 _]. congruence.
Qed.
